(** * Reactivation campaign: the batch state machine of [main.py]

    A shallow embedding of [src/main.py] and of the parts of [src/utils.py]
    it calls, followed by the properties of the specification.

    - A Python [str] is a [string]; one [ascii] is one character with a code
      point below 256.  The only text of the program outside that range is
      one apostrophe of the e-mail template, kept as its UTF-8 bytes; no
      operation of the program inspects it.
    - The spreadsheet, the messaging endpoint, the notification webhook and
      the clock are the outside world.  The spreadsheet is a grid of cells,
      the calls made to the three services are recorded in a log, and the
      answers of the services and of the clock are given by an environment.
    - Python exceptions are values of [Exn]; a computation returns either an
      exception or a result, together with the world it leaves behind. *)

From Stdlib Require Import List String Ascii Bool Arith ZArith Lia Sorted.
From Stdlib Require Import DecimalString DecimalNat.
Import ListNotations.

Local Open Scope string_scope.
Local Open Scope list_scope.
Local Open Scope nat_scope.

(** ** Strings *)

Module Str.

(** [str.isspace] for one character, for code points below 256:
    TAB..CR, FS..US, SPACE, NEL and NBSP. *)
Definition isspace (c : ascii) : bool :=
  let n := nat_of_ascii c in
  ((9 <=? n) && (n <=? 13)) || ((28 <=? n) && (n <=? 32))
  || (n =? 133) || (n =? 160).

Fixpoint lstrip (s : string) : string :=
  match s with
  | EmptyString => EmptyString
  | String c s' => if isspace c then lstrip s' else s
  end.

Fixpoint rstrip (s : string) : string :=
  match s with
  | EmptyString => EmptyString
  | String c s' =>
      match rstrip s' with
      | EmptyString => if isspace c then EmptyString else String c EmptyString
      | r => String c r
      end
  end.

(** [s.strip()] *)
Definition strip (s : string) : string := rstrip (lstrip s).

(** [s.lower()], for code points below 256. *)
Definition lower_char (c : ascii) : ascii :=
  let n := nat_of_ascii c in
  if ((65 <=? n) && (n <=? 90))
     || ((192 <=? n) && (n <=? 222) && negb (n =? 215))
  then ascii_of_nat (n + 32) else c.

Fixpoint lower (s : string) : string :=
  match s with
  | EmptyString => EmptyString
  | String c s' => String (lower_char c) (lower s')
  end.

(** [str(n)] for a natural number, as an f-string prints it. *)
Definition of_nat (n : nat) : string := NilEmpty.string_of_uint (Nat.to_uint n).

(** [template.format(first_name=v)] for a template whose only replacement
    field is [{first_name}] and which has no other brace, as both
    templates of [main.py] are.  [skip] counts the characters of the field
    that are still to be dropped. *)
Fixpoint format_from (skip : nat) (template first_name : string) : string :=
  match template with
  | EmptyString => EmptyString
  | String c t =>
      match skip with
      | S k => format_from k t first_name
      | O =>
          if prefix "{first_name}" template
          then first_name ++ format_from 11 t first_name
          else String c (format_from 0 t first_name)
      end
  end%string.

Definition format (template first_name : string) : string :=
  format_from 0 template first_name.

End Str.

(** ** Configuration ([main.py], lines 6-41) *)

Definition TAB_NAME : string := "Sheet1".
Definition BATCH_SIZE : nat := 30.
Definition DELAY_HOURS : Z := 24.

Definition STATUS_COL_IDX : nat := 8.
Definition DATE_SENT_COL_IDX : nat := 9.
Definition CONTACT_ID_COL_IDX : nat := 7.
Definition FIRST_NAME_COL_IDX : nat := 1.

Definition EMAIL_SUBJECT : string := "Important Update".

(** The double quote and the right single quotation mark (U+2019, as its
    UTF-8 bytes) of the e-mail template. *)
Definition dq : string := String (ascii_of_nat 34) EmptyString.
Definition rsquo : string :=
  String (ascii_of_nat 226) (String (ascii_of_nat 128) (String (ascii_of_nat 153) EmptyString)).

Definition EMAIL_BODY_TEMPLATE : string :=
  ("<div style=" ++ dq ++ "font-size: 16px; font-family: Arial, sans-serif; color: #333;" ++ dq ++ ">
<p>Hi {first_name},</p>

<p>It" ++ rsquo ++ "s been a while since we saw you! I was updating our client records and realized you qualify for our " ++ dq ++ "Returning Client" ++ dq ++ " status.</p>

<p>That means if you move with us again, you automatically get <strong>5% off</strong> your quote.</p>

<p>We just opened up a few spots for estimates next week. Are you moving soon (or know someone who is)?</p>

<p>Best,<br>Jim</p>
</div>")%string.

Definition SMS_BODY_TEMPLATE : string :=
  "Hey {first_name}, Jim here from Splendid Moving.

Did you see my email about the 5% loyalty discount?

If you are moving soon, you can use this link to get a quote with the 5% off applied: https://services.msgsndr.com/urls/l/QGRUkVTzw 

Let me know if it works!".

(** ** Rows and their cells *)

Definition Row := list string.
Definition Sheet := list Row.

(** [get_status(row)], lines 43-46. *)
Definition get_status (row : Row) : string :=
  if STATUS_COL_IDX <? List.length row
  then Str.strip (nth STATUS_COL_IDX row "")
  else "".

(** [get_date_sent(row)], lines 48-51; Python's [None] is [None]. *)
Definition get_date_sent (row : Row) : option string :=
  if DATE_SENT_COL_IDX <? List.length row
  then Some (Str.strip (nth DATE_SENT_COL_IDX row ""))
  else None.

(** [row[CONTACT_ID_COL_IDX] if len(row) > CONTACT_ID_COL_IDX else None] *)
Definition get_contact_id (row : Row) : option string :=
  if CONTACT_ID_COL_IDX <? List.length row
  then Some (nth CONTACT_ID_COL_IDX row "")
  else None.

(** [row[FIRST_NAME_COL_IDX] if len(row) > FIRST_NAME_COL_IDX else "there"] *)
Definition get_first_name (row : Row) : string :=
  if FIRST_NAME_COL_IDX <? List.length row
  then nth FIRST_NAME_COL_IDX row ""
  else "there".

(** [not x] for a value that is a string or [None]. *)
Definition falsy (x : option string) : bool :=
  match x with
  | None => true
  | Some s => (s =? "")%string
  end.

Definition str_of (x : option string) : string :=
  match x with
  | Some s => s
  | None => ""
  end.

(** ** The two scans of [main] *)

(** Lines 65-68: the indices (header offset included) of the data rows whose
    status is "Email Sent"; [i] is the [enumerate] counter. *)
Fixpoint scan_active (i : nat) (data_rows : list Row) : list nat :=
  match data_rows with
  | [] => []
  | row :: rest =>
      if (get_status row =? "Email Sent")%string
      then (i + 1) :: scan_active (S i) rest
      else scan_active (S i) rest
  end.

(** Lines 127-134: the loop that fills [new_batch_indices] and breaks once
    it holds [BATCH_SIZE] entries. *)
Fixpoint scan_new (i : nat) (data_rows : list Row) (new_batch_indices : list nat)
  : list nat :=
  match data_rows with
  | [] => new_batch_indices
  | row :: rest =>
      let status := get_status row in
      if ((status =? "New") || (status =? ""))%string
      then
        let new_batch_indices := new_batch_indices ++ [i + 1] in
        if BATCH_SIZE <=? List.length new_batch_indices
        then new_batch_indices
        else scan_new (S i) rest new_batch_indices
      else scan_new (S i) rest new_batch_indices
  end.

(** ** Dates

    [datetime] values as [main] meets them.  [datetime.now()] is naive (no
    UTC offset); [datetime.fromisoformat] returns a naive value for a text
    without offset and an aware one for a text with an offset.  Times are
    counted in microseconds. *)

Inductive datetime : Type :=
| Naive (us : Z)
| Aware (us : Z) (utcoffset : Z).

Inductive Exn : Type :=
| ValueError
| TypeError
| MessagingError
| SheetsError.

(** [timedelta(hours=h)] *)
Definition timedelta_hours (h : Z) : Z := (h * 3600 * 1000000)%Z.

(** [a - b] for two [datetime] values: Python raises [TypeError] when one is
    naive and the other aware. *)
Definition datetime_sub (a b : datetime) : Exn + Z :=
  match a, b with
  | Naive x, Naive y => inr (x - y)%Z
  | Aware x ox, Aware y oy => inr ((x - ox) - (y - oy))%Z
  | _, _ => inl TypeError
  end.

(** ** The outside world *)

(** What the services and the clock answer during one run.  A run handles a
    row at most once, so the answers given while a row is handled are
    indexed by that row:
    - [client_ok]: [GoogleSheetClient(SPREADSHEET_ID)] succeeds, that is the
      service account text is there, [decode_service_account] decodes it and
      the service object is built;
    - [read_ok]: the request of [read_all_rows] succeeds;
    - [http_ok r]: the messaging endpoint answers 200 or 201 to the request
      made for row [r] (anything else makes [send_ghl_message] raise);
    - [write_ok r c v]: the request writing [v] into cell ([r], [c]) succeeds;
    - [now r]: what [datetime.now()] reads while row [r] is handled;
    - [fromisoformat s]: the result of [datetime.fromisoformat(s)], [None]
      when it raises [ValueError];
    - [isoformat t]: the text of [datetime.isoformat()] for a naive value. *)
Record Env : Type := {
  client_ok : bool;
  read_ok : bool;
  http_ok : nat -> bool;
  write_ok : nat -> nat -> string -> bool;
  now : nat -> Z;
  fromisoformat : string -> option datetime;
  isoformat : Z -> string
}.

(** The calls made to the services.  [SendMessage] carries the row it is
    made for next to the arguments of [send_ghl_message]. *)
Inductive Event : Type :=
| SendMessage (row_idx : nat) (contact_id message_type content : string)
              (subject : option string)
| UpdateCell (tab_name : string) (row_index col_index : nat) (value : string)
| Notify (message : string).

(** The spreadsheet tab as [read_all_rows] returns it, every content it went
    through since the start (oldest first), and the calls made so far. *)
Record World : Type := {
  sheet : Sheet;
  history : list Sheet;
  log : list Event
}.

(** Writing one cell of a grid: cells and rows that the value list does not
    hold are empty, so a write past the end fills the gap with empty ones. *)
Fixpoint set_nth {A : Type} (d : A) (n : nat) (x : A) (l : list A) : list A :=
  match n, l with
  | O, [] => [x]
  | O, _ :: t => x :: t
  | S n', [] => d :: set_nth d n' x []
  | S n', h :: t => h :: set_nth d n' x t
  end.

Definition set_cell (s : Sheet) (row_index col_index : nat) (value : string) : Sheet :=
  set_nth [] row_index (set_nth "" col_index value (nth row_index s [])) s.

(** ** Computations: state and exceptions *)

Definition M (A : Type) : Type := World -> (Exn + A) * World.

Definition ret {A : Type} (a : A) : M A := fun w => (inr a, w).

Definition raise {A : Type} (e : Exn) : M A := fun w => (inl e, w).

Definition bind {A B : Type} (m : M A) (f : A -> M B) : M B :=
  fun w =>
    match m w with
    | (inl e, w') => (inl e, w')
    | (inr a, w') => f a w'
    end.

(** [try: m  except Exception: h] *)
Definition try_except {A : Type} (m : M A) (h : Exn -> M A) : M A :=
  fun w =>
    match m w with
    | (inl e, w') => h e w'
    | (inr a, w') => (inr a, w')
    end.

Definition lift {A : Type} (r : Exn + A) : M A := fun w => (r, w).

Definition emit (ev : Event) : M unit :=
  fun w => (inr tt, {| sheet := sheet w; history := history w; log := log w ++ [ev] |}).

Declare Scope monad_scope.
Delimit Scope monad_scope with monad.
Notation "x <- m ;; k" := (bind m (fun x => k))
  (at level 61, m at next level, right associativity) : monad_scope.
Notation "m ;; k" := (bind m (fun _ => k))
  (at level 61, right associativity) : monad_scope.
Local Open Scope monad_scope.

(** [for x in xs: count = body(x, count)] *)
Fixpoint for_each (xs : list nat) (body : nat -> nat -> M nat) (count : nat) : M nat :=
  match xs with
  | [] => ret count
  | x :: rest => count' <- body x count ;; for_each rest body count'
  end.

(** ** [utils.py] and [main] *)

Section Program.

Variable env : Env.

(** [send_notification(message)], [utils.py] lines 50-56: every failure
    of the request is swallowed. *)
Definition send_notification (message : string) : M unit :=
  emit (Notify message).

(** [send_ghl_message(contact_id, message_type, content, subject)],
    [utils.py] lines 66-85. *)
Definition send_ghl_message (row_idx : nat) (contact_id message_type content : string)
           (subject : option string) : M unit :=
  emit (SendMessage row_idx contact_id message_type content subject) ;;
  (if (Str.lower message_type =? "email")%string
   then if falsy subject then raise ValueError else ret tt
   else ret tt) ;;
  if http_ok env row_idx then ret tt else raise MessagingError.

(** [GoogleSheetClient(spreadsheet_id)], [utils.py] lines 87-90, with
    [get_sheets_service] (lines 42-48) and [decode_service_account] (lines
    25-40) behind it: the construction raises when the credentials are
    missing or do not decode. *)
Definition GoogleSheetClient : M unit :=
  if client_ok env then ret tt else raise ValueError.

(** [GoogleSheetClient.read_all_rows], lines 92-96: one request, which
    raises when it fails. *)
Definition read_all_rows (tab_name : string) : M Sheet :=
  fun w => if read_ok env then (inr (sheet w), w) else (inl SheetsError, w).

(** [GoogleSheetClient.update_cell], lines 98-114: one request for one
    cell.  The column letter is [chr(ord('A') + col_index)], a column of
    the tab for the indices 0 to 25 that [main] uses. *)
Definition update_cell (tab_name : string) (row_index col_index : nat) (value : string)
  : M unit :=
  emit (UpdateCell tab_name row_index col_index value) ;;
  if write_ok env row_index col_index value
  then fun w =>
         let s := set_cell (sheet w) row_index col_index value in
         (inr tt, {| sheet := s; history := history w ++ [s]; log := log w |})
  else raise SheetsError.

(** [GoogleSheetClient.update_status], lines 116-120. *)
Definition update_status (tab_name : string) (row_index status_col_index : nat)
           (status : string) (date_col_index : option nat) (date_val : option string)
  : M unit :=
  update_cell tab_name row_index status_col_index status ;;
  match date_col_index, date_val with
  | Some date_col_index, Some date_val =>
      update_cell tab_name row_index date_col_index date_val
  | _, _ => ret tt
  end.

(** The body of the loop of lines 74-115, for one row of the active
    batch; the result is the new value of [processed_count]. *)
Definition advance_row (dry_run : bool) (rows : Sheet) (row_idx processed_count : nat)
  : M nat :=
  let row := nth row_idx rows [] in
  let contact_id := get_contact_id row in
  let date_sent_str := get_date_sent row in
  let first_name := get_first_name row in
  if falsy contact_id then ret processed_count
  else if falsy date_sent_str then ret processed_count
  else
    match fromisoformat env (str_of date_sent_str) with
    | None => ret processed_count
    | Some date_sent =>
        time_diff <- lift (datetime_sub (Naive (now env row_idx)) date_sent) ;;
        if (time_diff <? timedelta_hours DELAY_HOURS)%Z then ret processed_count
        else
          let msg_body := Str.format SMS_BODY_TEMPLATE first_name in
          if negb dry_run
          then
            try_except
              (send_ghl_message row_idx (str_of contact_id) "SMS" msg_body None ;;
               update_status TAB_NAME row_idx STATUS_COL_IDX "Done" None None ;;
               ret (processed_count + 1))
              (fun _ =>
                 update_status TAB_NAME row_idx STATUS_COL_IDX "SMS Failed" None None ;;
                 ret processed_count)
          else ret (processed_count + 1)
    end.

(** The body of the loop of lines 142-166, for one row of the new batch;
    the result is the new value of [new_batch_count]. *)
Definition email_row (dry_run : bool) (rows : Sheet) (row_idx new_batch_count : nat)
  : M nat :=
  let row := nth row_idx rows [] in
  let contact_id := get_contact_id row in
  let first_name := get_first_name row in
  if falsy contact_id then ret new_batch_count
  else
    let email_body := Str.format EMAIL_BODY_TEMPLATE first_name in
    if negb dry_run
    then
      try_except
        (send_ghl_message row_idx (str_of contact_id) "Email" email_body
                          (Some EMAIL_SUBJECT) ;;
         let current_time := isoformat env (now env row_idx) in
         update_status TAB_NAME row_idx STATUS_COL_IDX "Email Sent"
                       (Some DATE_SENT_COL_IDX) (Some current_time) ;;
         ret (new_batch_count + 1))
        (fun _ =>
           update_status TAB_NAME row_idx STATUS_COL_IDX "Email Failed" None None ;;
           ret new_batch_count)
    else ret (new_batch_count + 1).

(** Lines 70-121: the branch that advances the active batch. *)
Definition advance_active_batch (dry_run : bool) (rows : Sheet)
           (active_batch_indices : list nat) : M unit :=
  processed_count <- for_each active_batch_indices (advance_row dry_run rows) 0 ;;
  if 0 <? processed_count
  then
    let msg := ("Completed SMS batch for " ++ Str.of_nat processed_count
                ++ " contacts.")%string in
    if negb dry_run then send_notification msg else ret tt
  else ret tt.

(** Lines 123-172: the branch that starts a new batch. *)
Definition start_new_batch (dry_run : bool) (rows : Sheet) : M unit :=
  let data_rows := skipn 1 rows in
  let new_batch_indices := scan_new 0 data_rows [] in
  match new_batch_indices with
  | [] => ret tt
  | _ :: _ =>
      new_batch_count <- for_each new_batch_indices (email_row dry_run rows) 0 ;;
      if 0 <? new_batch_count
      then
        let msg := ("Started new batch. Sent Email to " ++ Str.of_nat new_batch_count
                    ++ " contacts.")%string in
        if negb dry_run then send_notification msg else ret tt
      else ret tt
  end.

(** [main(dry_run)], lines 53-172. *)
Definition main (dry_run : bool) : M unit :=
  GoogleSheetClient ;;
  rows <- read_all_rows TAB_NAME ;;
  match rows with
  | [] => ret tt
  | _ :: _ =>
      let data_rows := skipn 1 rows in
      let active_batch_indices := scan_active 0 data_rows in
      match active_batch_indices with
      | _ :: _ => advance_active_batch dry_run rows active_batch_indices
      | [] => start_new_batch dry_run rows
      end
  end.

End Program.

(** The world at the start of a run over the tab content [s]. *)
Definition start (s : Sheet) : World := {| sheet := s; history := []; log := [] |}.

(** ** A reading of the date functions, for the examples

    [Iso.parse] reads the texts [YYYY-MM-DDTHH:MM:SS] and
    [YYYY-MM-DDTHH:MM:SS+HH:MM] (or [-HH:MM]), which
    [datetime.fromisoformat] accepts with the same result, and [Iso.print]
    writes the first form as [datetime.isoformat()] does for a value without
    microseconds.  The theorems below hold for every environment; this one
    only gives the examples something to run on. *)

Module Iso.

Local Open Scope Z_scope.

Definition digit (c : ascii) : option Z :=
  let n := Z.of_nat (nat_of_ascii c) in
  if (48 <=? n) && (n <=? 57) then Some (n - 48) else None.

Fixpoint number (acc : Z) (cs : list ascii) : option Z :=
  match cs with
  | [] => Some acc
  | c :: cs' =>
      match digit c with
      | Some d => number (10 * acc + d) cs'
      | None => None
      end
  end.

Definition field (from len : nat) (cs : list ascii) : option Z :=
  number 0 (firstn len (skipn from cs)).

Definition char_at (i : nat) (cs : list ascii) : string :=
  match nth_error cs i with
  | Some c => String c EmptyString
  | None => EmptyString
  end.

Definition is_leap (y : Z) : bool :=
  ((y mod 4 =? 0) && negb (y mod 100 =? 0)) || (y mod 400 =? 0).

Definition days_in_month (y m : Z) : Z :=
  if m =? 2 then (if is_leap y then 29 else 28)
  else if (m =? 4) || (m =? 6) || (m =? 9) || (m =? 11) then 30 else 31.

(** Days from 1970-01-01 to the given civil date. *)
Definition days_from_civil (y m d : Z) : Z :=
  let y' := if m <=? 2 then y - 1 else y in
  let era := y' / 400 in
  let yoe := y' - era * 400 in
  let doy := (153 * (if 2 <? m then m - 3 else m + 9) + 2) / 5 + d - 1 in
  let doe := yoe * 365 + yoe / 4 - yoe / 100 + doy in
  era * 146097 + doe - 719468.

Definition civil_from_days (z : Z) : Z * Z * Z :=
  let z := z + 719468 in
  let era := z / 146097 in
  let doe := z - era * 146097 in
  let yoe := (doe - doe / 1460 + doe / 36524 - doe / 146096) / 365 in
  let doy := doe - (365 * yoe + yoe / 4 - yoe / 100) in
  let mp := (5 * doy + 2) / 153 in
  let d := doy - (153 * mp + 2) / 5 + 1 in
  let m := if mp <? 10 then mp + 3 else mp - 9 in
  let y := yoe + era * 400 + (if m <=? 2 then 1 else 0) in
  (y, m, d).

Definition wall (cs : list ascii) : option Z :=
  match field 0 4 cs, field 5 2 cs, field 8 2 cs,
        field 11 2 cs, field 14 2 cs, field 17 2 cs with
  | Some y, Some m, Some d, Some hh, Some mm, Some ss =>
      if (char_at 4 cs =? "-")%string && (char_at 7 cs =? "-")%string
         && (char_at 10 cs =? "T")%string
         && (char_at 13 cs =? ":")%string && (char_at 16 cs =? ":")%string
         && (1 <=? y) && (1 <=? m) && (m <=? 12)
         && (1 <=? d) && (d <=? days_in_month y m)
         && (hh <? 24) && (mm <? 60) && (ss <? 60)
      then Some ((((days_from_civil y m d * 24 + hh) * 60 + mm) * 60 + ss) * 1000000)
      else None
  | _, _, _, _, _, _ => None
  end.

Definition offset (cs : list ascii) : option Z :=
  match field 20 2 cs, field 23 2 cs with
  | Some hh, Some mm =>
      if (char_at 22 cs =? ":")%string && (hh <? 24) && (mm <? 60)
      then
        let v := (hh * 60 + mm) * 60 * 1000000 in
        if (char_at 19 cs =? "+")%string then Some v
        else if (char_at 19 cs =? "-")%string then Some (- v)
        else None
      else None
  | _, _ => None
  end.

Definition parse (s : string) : option datetime :=
  let cs := list_ascii_of_string s in
  match List.length cs with
  | 19%nat => option_map Naive (wall cs)
  | 25%nat =>
      match wall cs, offset cs with
      | Some t, Some o => Some (Aware t o)
      | _, _ => None
      end
  | _ => None
  end.

Definition two (n : Z) : string :=
  String.append (if n <? 10 then "0" else "") (Str.of_nat (Z.to_nat n)).

Definition four (n : Z) : string :=
  String.append
    (if n <? 10 then "000" else if n <? 100 then "00" else if n <? 1000 then "0" else "")
    (Str.of_nat (Z.to_nat n)).

Definition print (t : Z) : string :=
  let secs := t / 1000000 in
  let days := secs / 86400 in
  let rem := secs mod 86400 in
  let '(y, m, d) := civil_from_days days in
  (four y ++ "-" ++ two m ++ "-" ++ two d ++ "T"
     ++ two (rem / 3600) ++ ":" ++ two (rem mod 3600 / 60) ++ ":" ++ two (rem mod 60))%string.

End Iso.

Definition sample_env (http : nat -> bool) (wr : nat -> nat -> string -> bool) (t : Z)
  : Env :=
  {| client_ok := true; read_ok := true;
     http_ok := http; write_ok := wr; now := fun _ => t;
     fromisoformat := Iso.parse; isoformat := Iso.print |}.

Definition header : Row :=
  ["Full name"; "First name"; "Email"; "Phone"; "Move date"; "Movers"; "Rate";
   "Contact ID"; "Status"].

(** The row of the scenario of the specification: status still empty. *)
Definition jane : Row :=
  ["Jane Doe"; "Jane"; "j@x.com"; "555-1234"; ""; ""; ""; "c123"; ""; ""].

(** 2024-03-01T09:00:00, in microseconds. *)
Definition t0 : Z := 1709283600000000.

Definition all_ok : Env := sample_env (fun _ => true) (fun _ _ _ => true) t0.

(** ** Sample rows *)

(** A status cell with blanks around "Email Sent". *)
Definition padded : Row :=
  ["Ann Lee"; "Ann"; "a@x.com"; "555-0000"; ""; ""; ""; "c7"; " Email Sent "].

(** An eligible row without contact id. *)
Definition no_contact : Row :=
  ["Bob Ray"; "Bob"; "b@x.com"; "555-0001"; ""; ""; ""; ""; "New"].

(** A tab with 31 eligible rows, the first of them without contact id. *)
Definition crowded : Sheet := header :: no_contact :: repeat jane 30.

(** An active row whose date carries a UTC offset. *)
Definition offset_row : Row :=
  ["Al Roe"; "Al"; "al@x.com"; "555-0002"; ""; ""; ""; "c1"; "Email Sent";
   "2024-02-28T08:00:00+00:00"].

(** An active row that is due: its date is 49 hours before [t0]. *)
Definition due_row : Row :=
  ["Di Poe"; "Di"; "di@x.com"; "555-0003"; ""; ""; ""; "c2"; "Email Sent";
   "2024-02-28T08:00:00"].

(** An active row still inside the delay: its date is 10 hours before
    [t0]. *)
Definition waiting_row : Row :=
  ["Ed Moe"; "Ed"; "ed@x.com"; "555-0004"; ""; ""; ""; "c3"; "Email Sent";
   "2024-02-29T23:00:00"].

(** A new row with a contact id and a blank first-name cell. *)
Definition nameless : Row :=
  ["Cy Doe"; ""; "cy@x.com"; "555-0005"; ""; ""; ""; "c5"; ""; ""].

(** ** Vocabulary of the properties *)

(** The test of line 131. *)
Definition is_new (row : Row) : bool :=
  ((get_status row =? "New") || (get_status row =? ""))%string.

(** The rows a new batch could take, by the words of the specification:
    the indices (header offset included) of all data rows whose status is
    "New" or empty, in row order. *)
Fixpoint eligible_indices (i : nat) (data_rows : list Row) : list nat :=
  match data_rows with
  | [] => []
  | row :: rest =>
      if is_new row
      then (i + 1) :: eligible_indices (S i) rest
      else eligible_indices (S i) rest
  end.

(** The world one run of [main] leaves behind, started on the tab content
    [rows]. *)
Definition after_run (env : Env) (dry_run : bool) (rows : Sheet) : World :=
  snd (main env dry_run (start rows)).

(** The call [ev] is a message sent for row [r] or a write to a cell of row
    [r]. *)
Definition about (r : nat) (ev : Event) : Prop :=
  match ev with
  | SendMessage r' _ _ _ _ => r' = r
  | UpdateCell _ r' _ _ => r' = r
  | Notify _ => False
  end.

(** Row [r] holds the same cells in [s] as in [rows]. *)
Definition same_row (rows : Sheet) (r : nat) (s : Sheet) : Prop :=
  nth r s [] = nth r rows [].

(** Nothing happens to row [r] in the run: no call is made for it, and it
    holds the same cells at the end and in every content in between. *)
Definition untouched (env : Env) (dry_run : bool) (rows : Sheet) (r : nat) : Prop :=
  let w := after_run env dry_run rows in
  Forall (fun ev => ~ about r ev) (log w)
  /\ same_row rows r (sheet w)
  /\ Forall (same_row rows r) (history w).

(** The moves a status may make in one run. *)
Inductive edge : string -> string -> Prop :=
| edge_email_sent (s : string) : s = "New" \/ s = "" -> edge s "Email Sent"
| edge_email_failed (s : string) : s = "New" \/ s = "" -> edge s "Email Failed"
| edge_done : edge "Email Sent" "Done"
| edge_sms_failed : edge "Email Sent" "SMS Failed".

Definition is_send (ev : Event) : bool :=
  match ev with
  | SendMessage _ _ _ _ _ => true
  | _ => false
  end.

(** The number of messages among the calls [evs]. *)
Definition sends (evs : list Event) : nat := List.length (filter is_send evs).

(** [m] sends at most [k] messages. *)
Definition sends_at_most {A : Type} (k : nat) (m : M A) : Prop :=
  forall w, sends (log (snd (m w))) <= sends (log w) + k.

(** Row [r] has no contact id: lines 80 and 147 skip it. *)
Definition contactless (rows : Sheet) (r : nat) : bool :=
  falsy (get_contact_id (nth r rows [])).

(** ** What a computation may do to the world

    [Reach ok w0 w]: the world [w] comes from [w0] by calls that [ok]
    allows, each recorded in the log, a cell being written only by a
    request that [ok] allows. *)

Section Allowed_steps.

Variable ok : Event -> Prop.

Inductive Reach (w0 : World) : World -> Prop :=
| Reach_refl : Reach w0 w0
| Reach_emit (w : World) (ev : Event) :
    Reach w0 w -> ok ev ->
    Reach w0 {| sheet := sheet w; history := history w; log := log w ++ [ev] |}
| Reach_write (w : World) (tab : string) (r c : nat) (v : string) :
    Reach w0 w -> ok (UpdateCell tab r c v) ->
    Reach w0 {| sheet := set_cell (sheet w) r c v;
                history := history w ++ [set_cell (sheet w) r c v];
                log := log w |}.

(** Whatever the world [m] starts in, it only makes calls that [ok]
    allows. *)
Definition reaches {A : Type} (m : M A) : Prop :=
  forall w, Reach w (snd (m w)).

End Allowed_steps.

(** ** The calls each branch of [main] may make *)

Section Calls.

Variable env : Env.
Variable rows : Sheet.

(** The delay has run out for row [r]: its date text reads as a naive
    time [t] with [now - t] not below the threshold. *)
Definition due (r : nat) : Prop :=
  exists t,
    fromisoformat env (str_of (get_date_sent (nth r rows []))) = Some (Naive t)
    /\ (timedelta_hours DELAY_HOURS <= now env r - t)%Z.

Definition has_contact (r : nat) : Prop :=
  falsy (get_contact_id (nth r rows [])) = false.

(** Row [r] passes every test of lines 80-98. *)
Definition sms_ready (r : nat) : Prop :=
  has_contact r /\ falsy (get_date_sent (nth r rows [])) = false /\ due r.

(** Calls of the branch that advances the active batch, for the rows in
    [sel]. *)
Definition sms_event (sel : nat -> Prop) (ev : Event) : Prop :=
  match ev with
  | SendMessage r cid ty body subj =>
      sel r /\ sms_ready r
      /\ cid = str_of (get_contact_id (nth r rows []))
      /\ ty = "SMS"
      /\ body = Str.format SMS_BODY_TEMPLATE (get_first_name (nth r rows []))
      /\ subj = None
  | UpdateCell tab r c v =>
      sel r /\ sms_ready r /\ tab = TAB_NAME /\ c = STATUS_COL_IDX
      /\ (v = "Done" \/ v = "SMS Failed")
  | Notify _ => True
  end.

(** Calls of the branch that starts a new batch, for the rows in [sel]. *)
Definition email_event (sel : nat -> Prop) (ev : Event) : Prop :=
  match ev with
  | SendMessage r cid ty body subj =>
      sel r /\ has_contact r
      /\ cid = str_of (get_contact_id (nth r rows []))
      /\ ty = "Email"
      /\ body = Str.format EMAIL_BODY_TEMPLATE (get_first_name (nth r rows []))
      /\ subj = Some EMAIL_SUBJECT
  | UpdateCell tab r c v =>
      sel r /\ has_contact r /\ tab = TAB_NAME
      /\ ((c = STATUS_COL_IDX /\ (v = "Email Sent" \/ v = "Email Failed"))
          \/ (c = DATE_SENT_COL_IDX /\ v = isoformat env (now env r)))
  | Notify _ => True
  end.

(** The calls one run over [rows] may make: those of the branch that the
    scan for an active batch selects. *)
Definition main_event (ev : Event) : Prop :=
  match scan_active 0 (skipn 1 rows) with
  | [] => email_event (fun r => In r (scan_new 0 (skipn 1 rows) [])) ev
  | i :: idxs => sms_event (fun r => In r (i :: idxs)) ev
  end.

(** The status the SMS step gives row [r]. *)
Definition sms_outcome (r : nat) : string :=
  if http_ok env r then "Done" else "SMS Failed".

(** The date of row [x] does not read as an aware time. *)
Definition no_offset (x : nat) : Prop :=
  forall t o,
    fromisoformat env (str_of (get_date_sent (nth x rows []))) <> Some (Aware t o).

End Calls.

(** ** The range of [update_cell] *)

(** [chr(ord('A') + col_index)], [utils.py] line 105, for the indices
    below 191, whose character has a code point below 256. *)
Definition col_letter (col_index : nat) : string :=
  String (ascii_of_nat (65 + col_index)) EmptyString.

(** [f"{tab_name}!{col_letter}{row_index + 1}"], [utils.py] line 106: the
    range that [update_cell] asks the service to write. *)
Definition cell_range (tab_name : string) (row_index col_index : nat) : string :=
  (tab_name ++ "!" ++ col_letter col_index ++ Str.of_nat (row_index + 1))%string.

(** ** Vocabulary of the further properties *)

(** An environment without usable credentials, and one whose read
    request fails. *)
Definition no_client : Env :=
  {| client_ok := false; read_ok := true;
     http_ok := fun _ => true; write_ok := fun _ _ _ => true; now := fun _ => t0;
     fromisoformat := Iso.parse; isoformat := Iso.print |}.

Definition no_rows : Env :=
  {| client_ok := true; read_ok := false;
     http_ok := fun _ => true; write_ok := fun _ _ _ => true; now := fun _ => t0;
     fromisoformat := Iso.parse; isoformat := Iso.print |}.

(** [m] ends normally or with an exception that [P] allows in the world it
    leaves. *)
Definition raises_with {A : Type} (P : Exn -> World -> Prop) (m : M A) : Prop :=
  forall w, match m w with
            | (inl e, w') => P e w'
            | (inr _, _) => True
            end.

(** Why a run over [rows] can end with the exception [e], leaving the
    world [w']: the client could not be built ([ValueError]); the read
    request failed, or, in a real run, the last call made is a request to
    write a cell and that request failed ([SheetsError]); an active row
    with a contact id has a date that reads as an aware time
    ([TypeError]).  A failure of the
    messaging call never leaves [main]. *)
Definition abort_cause (env : Env) (dry_run : bool) (rows : Sheet) (e : Exn) (w' : World)
  : Prop :=
  match e with
  | ValueError => client_ok env = false
  | SheetsError =>
      read_ok env = false
      \/ (dry_run = false
          /\ exists l tab r c v,
               log w' = l ++ [UpdateCell tab r c v] /\ write_ok env r c v = false)
  | TypeError =>
      exists r t o,
        In r (scan_active 0 (skipn 1 rows))
        /\ falsy (get_contact_id (nth r rows [])) = false
        /\ falsy (get_date_sent (nth r rows [])) = false
        /\ fromisoformat env (str_of (get_date_sent (nth r rows []))) = Some (Aware t o)
  | MessagingError => False
  end.

(** The number of calls among [evs] that [f] picks. *)
Definition count_events (f : Event -> bool) (evs : list Event) : nat :=
  List.length (filter f evs).

(** [m] adds at most [k] calls that [f] picks. *)
Definition adds_at_most {A : Type} (f : Event -> bool) (k : nat) (m : M A) : Prop :=
  forall w, count_events f (log (snd (m w))) <= count_events f (log w) + k.

(** The call is a message made for row [r]. *)
Definition message_for (r : nat) (ev : Event) : bool :=
  match ev with
  | SendMessage r' _ _ _ _ => r' =? r
  | _ => false
  end.

Definition is_notify (ev : Event) : bool :=
  match ev with
  | Notify _ => true
  | _ => false
  end.

(** Row [r] is skipped by the loop of lines 74-98: no contact id, no date,
    a date that does not parse, or a delay that has not run out. *)
Definition held (env : Env) (rows : Sheet) (r : nat) : Prop :=
  falsy (get_contact_id (nth r rows [])) = true
  \/ falsy (get_date_sent (nth r rows [])) = true
  \/ fromisoformat env (str_of (get_date_sent (nth r rows []))) = None
  \/ exists t,
       fromisoformat env (str_of (get_date_sent (nth r rows []))) = Some (Naive t)
       /\ (now env r - t < timedelta_hours DELAY_HOURS)%Z.

(** The tests of lines 80-98 for row [r], as a boolean: the row gets its
    SMS. *)
Definition ready (env : Env) (rows : Sheet) (r : nat) : bool :=
  negb (falsy (get_contact_id (nth r rows [])))
  && negb (falsy (get_date_sent (nth r rows [])))
  && match fromisoformat env (str_of (get_date_sent (nth r rows []))) with
     | Some (Naive t) => negb (now env r - t <? timedelta_hours DELAY_HOURS)%Z
     | _ => false
     end.

(** The summaries of lines 118 and 169. *)
Definition sms_summary (n : nat) : string :=
  ("Completed SMS batch for " ++ Str.of_nat n ++ " contacts.")%string.

Definition email_summary (n : nat) : string :=
  ("Started new batch. Sent Email to " ++ Str.of_nat n ++ " contacts.")%string.

(** The notification a real run ends with when it counted [n] rows. *)
Definition summary_calls (summary : nat -> string) (n : nat) : list Event :=
  if 0 <? n then [Notify (summary n)] else [].

(** The e-mail of row [r] goes out: the row has a contact id and the
    endpoint accepts the request. *)
Definition accepted (env : Env) (rows : Sheet) (r : nat) : bool :=
  negb (contactless rows r) && http_ok env r.

(** What lines 144-164 make of the cells [row] of row [r] when the requests
    to the spreadsheet succeed. *)
Definition emailed_row (env : Env) (rows : Sheet) (r : nat) (row : Row) : Row :=
  if contactless rows r then row
  else if http_ok env r
       then set_nth "" DATE_SENT_COL_IDX (isoformat env (now env r))
                    (set_nth "" STATUS_COL_IDX "Email Sent" row)
       else set_nth "" STATUS_COL_IDX "Email Failed" row.

(** From a world where [P] holds, [m] leaves a world where [Q] holds,
    whether it ends normally or raises. *)
Definition leads {A : Type} (P Q : World -> Prop) (m : M A) : Prop :=
  forall w, P w -> Q (snd (m w)).

(** The call is a message made for row [r], as a proposition. *)
Definition sent_for (r : nat) (ev : Event) : Prop :=
  match ev with
  | SendMessage r' _ _ _ _ => r' = r
  | _ => False
  end.

(** Every write among [evs] comes after a message for the same row. *)
Definition sent_before_write (evs : list Event) : Prop :=
  forall l1 tab r c v l2,
    evs = l1 ++ UpdateCell tab r c v :: l2 ->
    exists ev, In ev l1 /\ sent_for r ev.

(** The calls so far are in order. *)
Definition in_order (w : World) : Prop := sent_before_write (log w).

(** The calls so far are in order and hold a message for row [r]. *)
Definition in_order_sent (r : nat) (w : World) : Prop :=
  sent_before_write (log w) /\ exists e, In e (log w) /\ sent_for r e.

(** The tab after a sequence of runs, each with its environment and its
    [dry_run] flag. *)
Definition after_runs (steps : list (Env * bool)) (rows : Sheet) : Sheet :=
  fold_left (fun s step => sheet (after_run (fst step) (snd step) s)) steps rows.

(** * Properties *)

(** ** Cells of a grid *)

Lemma set_nth_length {A : Type} (d x : A) (n : nat) (l : list A) :
  List.length (set_nth d n x l) = Nat.max (S n) (List.length l).
Proof.
  revert l; induction n as [|n IH]; intros [|h t]; simpl; try reflexivity.
  - rewrite (IH []). simpl. lia.
  - now rewrite IH.
Qed.

Lemma nth_set_nth_same {A : Type} (d x : A) (n : nat) (l : list A) :
  nth n (set_nth d n x l) d = x.
Proof.
  revert l; induction n as [|n IH]; intros [|h t]; simpl; auto.
Qed.

Lemma nth_set_nth_other {A : Type} (d x : A) (n m : nat) (l : list A) :
  m <> n -> nth m (set_nth d n x l) d = nth m l d.
Proof.
  revert m l; induction n as [|n IH]; intros [|m] [|h t] Hne; simpl;
    try reflexivity; try congruence.
  - now destruct m.
  - rewrite IH by congruence. now destruct m.
  - apply IH; congruence.
Qed.

Lemma nth_set_cell (s : Sheet) (r r' c : nat) (v : string) :
  nth r (set_cell s r' c v) [] =
  if r =? r' then set_nth "" c v (nth r s []) else nth r s [].
Proof.
  unfold set_cell. destruct (Nat.eqb_spec r r') as [->|Hne].
  - apply nth_set_nth_same.
  - now apply nth_set_nth_other.
Qed.

Lemma get_status_set_status (row : Row) (v : string) :
  get_status (set_nth "" STATUS_COL_IDX v row) = Str.strip v.
Proof.
  unfold get_status. rewrite set_nth_length, nth_set_nth_same.
  destruct (Nat.ltb_spec STATUS_COL_IDX (Nat.max (S STATUS_COL_IDX) (List.length row)));
    [reflexivity | lia].
Qed.

Lemma get_status_set_date (row : Row) (v : string) :
  get_status (set_nth "" DATE_SENT_COL_IDX v row) = get_status row.
Proof.
  unfold get_status. rewrite set_nth_length.
  rewrite nth_set_nth_other by (unfold STATUS_COL_IDX, DATE_SENT_COL_IDX; lia).
  destruct (Nat.ltb_spec STATUS_COL_IDX (Nat.max (S DATE_SENT_COL_IDX) (List.length row)))
    as [_|H]; [|unfold STATUS_COL_IDX, DATE_SENT_COL_IDX in H; lia].
  destruct (Nat.ltb_spec STATUS_COL_IDX (List.length row)) as [_|H]; [reflexivity|].
  now rewrite nth_overflow.
Qed.

Lemma get_date_sent_set_date (row : Row) (v : string) :
  get_date_sent (set_nth "" DATE_SENT_COL_IDX v row) = Some (Str.strip v).
Proof.
  unfold get_date_sent. rewrite set_nth_length, nth_set_nth_same.
  destruct (Nat.ltb_spec DATE_SENT_COL_IDX (Nat.max (S DATE_SENT_COL_IDX) (List.length row)));
    [reflexivity | lia].
Qed.

(** ** Allowed steps *)

Section Reach.

Variable ok : Event -> Prop.

Lemma Reach_trans (w0 w1 w2 : World) :
  Reach ok w0 w1 -> Reach ok w1 w2 -> Reach ok w0 w2.
Proof.
  intros H01 H12. induction H12; eauto using Reach.
Qed.

(** The calls recorded on the way are all allowed. *)
Lemma Reach_log (w0 w : World) :
  Reach ok w0 w -> exists evs, log w = log w0 ++ evs /\ Forall ok evs.
Proof.
  induction 1 as [|w ev _ [evs [E F]] Hok|w tab r c v _ [evs [E F]] _].
  - exists []. now rewrite app_nil_r.
  - exists (evs ++ [ev]). simpl. rewrite E, app_assoc. split; [reflexivity|].
    apply Forall_app; auto.
  - exists evs. auto.
Qed.

(** A property of row [r] that every allowed write to a cell of that row
    keeps holds of the row all along. *)
Lemma Reach_row (P : Row -> Prop) (r : nat) (w0 w : World) :
  (forall tab c v row, ok (UpdateCell tab r c v) -> P row -> P (set_nth "" c v row)) ->
  Reach ok w0 w ->
  P (nth r (sheet w0) []) ->
  P (nth r (sheet w) []) /\
  exists hs, history w = history w0 ++ hs /\ Forall (fun s => P (nth r s [])) hs.
Proof.
  intros Hstep HR H0.
  induction HR as [|w ev _ [IH [hs [E F]]] _|w tab r' c v _ [IH [hs [E F]]] Hok]; simpl.
  - split; [assumption|]. exists []. now rewrite app_nil_r.
  - split; [assumption|]. now exists hs.
  - assert (Hnew : P (nth r (set_cell (sheet w) r' c v) [])).
    { rewrite nth_set_cell. destruct (Nat.eqb_spec r r') as [->|_]; eauto. }
    split; [assumption|]. exists (hs ++ [set_cell (sheet w) r' c v]).
    rewrite E, app_assoc. split; [reflexivity|]. apply Forall_app; auto.
Qed.

(** A row that no allowed write targets is never changed. *)
Lemma Reach_untouched (r : nat) (w0 w : World) :
  (forall tab c v, ~ ok (UpdateCell tab r c v)) ->
  Reach ok w0 w ->
  nth r (sheet w) [] = nth r (sheet w0) [] /\
  exists hs, history w = history w0 ++ hs /\
             Forall (fun s => nth r s [] = nth r (sheet w0) []) hs.
Proof.
  intros Hno HR.
  apply (Reach_row (fun row => row = nth r (sheet w0) [])); auto.
  intros tab c v row Hok. now apply Hno in Hok.
Qed.

Lemma reaches_ret {A : Type} (a : A) : reaches ok (ret a).
Proof. intros w. apply Reach_refl. Qed.

Lemma reaches_raise {A : Type} (e : Exn) : reaches ok (@raise A e).
Proof. intros w. apply Reach_refl. Qed.

Lemma reaches_lift {A : Type} (x : Exn + A) : reaches ok (lift x).
Proof. intros w. apply Reach_refl. Qed.

Lemma reaches_bind {A B : Type} (m : M A) (f : A -> M B) :
  reaches ok m -> (forall a, reaches ok (f a)) -> reaches ok (bind m f).
Proof.
  intros Hm Hf w. unfold bind. specialize (Hm w).
  destruct (m w) as [[e|a] w']; simpl in *; [assumption|].
  eapply Reach_trans; [eassumption | apply Hf].
Qed.

Lemma reaches_bind_inr {A B : Type} (a : A) (f : A -> M B) :
  reaches ok (f a) -> reaches ok (bind (lift (inr a)) f).
Proof. intros H w. apply H. Qed.

Lemma reaches_bind_inl {A B : Type} (e : Exn) (f : A -> M B) :
  reaches ok (bind (lift (inl e)) f).
Proof. intros w. apply Reach_refl. Qed.

Lemma reaches_try {A : Type} (m : M A) (h : Exn -> M A) :
  reaches ok m -> (forall e, reaches ok (h e)) -> reaches ok (try_except m h).
Proof.
  intros Hm Hh w. unfold try_except. specialize (Hm w).
  destruct (m w) as [[e|a] w']; simpl in *; [|assumption].
  eapply Reach_trans; [eassumption | apply Hh].
Qed.

Lemma reaches_emit (ev : Event) : ok ev -> reaches ok (emit ev).
Proof. intros Hok w. unfold emit; simpl. apply Reach_emit; [apply Reach_refl|exact Hok]. Qed.

Lemma reaches_read (env : Env) (tab : string) : reaches ok (read_all_rows env tab).
Proof. intros w. unfold read_all_rows. destruct (read_ok env); apply Reach_refl. Qed.

Lemma reaches_update_cell (env : Env) (tab : string) (r c : nat) (v : string) :
  ok (UpdateCell tab r c v) -> reaches ok (update_cell env tab r c v).
Proof.
  intros Hok. unfold update_cell. apply reaches_bind; [now apply reaches_emit|].
  intros _ w. destruct (write_ok env r c v); simpl; [|apply Reach_refl].
  apply (Reach_write ok w w tab); [apply Reach_refl | exact Hok].
Qed.

Lemma reaches_update_status (env : Env) (tab : string) (r c : nat) (v : string)
      (dc : option nat) (dv : option string) :
  ok (UpdateCell tab r c v) ->
  (forall c' v', dc = Some c' -> dv = Some v' -> ok (UpdateCell tab r c' v')) ->
  reaches ok (update_status env tab r c v dc dv).
Proof.
  intros H1 H2. unfold update_status.
  apply reaches_bind; [now apply reaches_update_cell|]. intros _.
  destruct dc as [c'|]; [destruct dv as [v'|]|]; try apply reaches_ret.
  now apply reaches_update_cell, H2.
Qed.

Lemma reaches_send (env : Env) (r : nat) (cid ty body : string) (subj : option string) :
  ok (SendMessage r cid ty body subj) ->
  reaches ok (send_ghl_message env r cid ty body subj).
Proof.
  intros Hok. unfold send_ghl_message.
  apply reaches_bind; [now apply reaches_emit|]. intros _.
  apply reaches_bind.
  - destruct (Str.lower ty =? "email")%string; [destruct (falsy subj)|];
      (apply reaches_ret || apply reaches_raise).
  - intros _. destruct (http_ok env r); (apply reaches_ret || apply reaches_raise).
Qed.

End Reach.

Lemma Reach_mono (ok ok' : Event -> Prop) (w0 w : World) :
  (forall ev, ok ev -> ok' ev) -> Reach ok w0 w -> Reach ok' w0 w.
Proof.
  intros Himp H. induction H; eauto using Reach.
Qed.

Lemma reaches_for_each (ok : Event -> Prop) (xs : list nat) (body : nat -> nat -> M nat) :
  (forall x c, In x xs -> reaches ok (body x c)) ->
  forall c, reaches ok (for_each xs body c).
Proof.
  induction xs as [|x rest IH]; intros Hbody c; simpl.
  - apply reaches_ret.
  - apply reaches_bind.
    + apply Hbody. now left.
    + intros c'. apply IH. intros y c'' Hy. apply Hbody. now right.
Qed.

(** ** The calls each branch of [main] may make *)

Section Allowed.

Variable env : Env.
Variable rows : Sheet.

Lemma sms_event_mono (sel sel' : nat -> Prop) (ev : Event) :
  (forall r, sel r -> sel' r) -> sms_event env rows sel ev -> sms_event env rows sel' ev.
Proof. intros H; destruct ev; simpl; intuition. Qed.

Lemma email_event_mono (sel sel' : nat -> Prop) (ev : Event) :
  (forall r, sel r -> sel' r) -> email_event env rows sel ev -> email_event env rows sel' ev.
Proof. intros H; destruct ev; simpl; intuition. Qed.

Lemma sms_ready_event (r : nat) (v : string) :
  sms_ready env rows r -> v = "Done" \/ v = "SMS Failed" ->
  sms_event env rows (eq r) (UpdateCell TAB_NAME r STATUS_COL_IDX v).
Proof. simpl; auto 10. Qed.

Lemma advance_row_reaches (dry_run : bool) (r c : nat) :
  reaches (sms_event env rows (eq r)) (advance_row env dry_run rows r c).
Proof.
  unfold advance_row.
  destruct (falsy (get_contact_id (nth r rows []))) eqn:Hc; [apply reaches_ret|].
  destruct (falsy (get_date_sent (nth r rows []))) eqn:Hd; [apply reaches_ret|].
  destruct (fromisoformat env _) as [[t|t o]|] eqn:Hp; [| |apply reaches_ret].
  - apply reaches_bind_inr.
    destruct (Z.ltb_spec (now env r - t) (timedelta_hours DELAY_HOURS)) as [|Hdue];
      [apply reaches_ret|].
    destruct dry_run; simpl; [apply reaches_ret|].
    assert (Hready : sms_ready env rows r) by (repeat split; auto; now exists t).
    apply reaches_try; [|intros _].
    + apply reaches_bind; [apply reaches_send; simpl; auto 10|intros _].
      apply reaches_bind; [|intros _; apply reaches_ret].
      apply reaches_update_status; [apply sms_ready_event; auto|discriminate].
    + apply reaches_bind; [|intros _; apply reaches_ret].
      apply reaches_update_status; [apply sms_ready_event; auto|discriminate].
  - apply reaches_bind_inl.
Qed.

Lemma email_row_reaches (dry_run : bool) (r c : nat) :
  reaches (email_event env rows (eq r)) (email_row env dry_run rows r c).
Proof.
  unfold email_row.
  destruct (falsy (get_contact_id (nth r rows []))) eqn:Hc; [apply reaches_ret|].
  destruct dry_run; simpl; [apply reaches_ret|].
  apply reaches_try; [|intros _].
  - apply reaches_bind; [apply reaches_send; simpl; auto 10|intros _].
    apply reaches_bind; [|intros _; apply reaches_ret].
    apply reaches_update_status; simpl.
    + unfold has_contact; auto 10.
    + intros c' v' [= <-] [= <-]. unfold has_contact; auto 10.
  - apply reaches_bind; [|intros _; apply reaches_ret].
    apply reaches_update_status; [simpl; unfold has_contact; auto 10|discriminate].
Qed.

Lemma advance_active_batch_reaches (dry_run : bool) (idxs : list nat) :
  reaches (sms_event env rows (fun r => In r idxs)) (advance_active_batch env dry_run rows idxs).
Proof.
  unfold advance_active_batch. apply reaches_bind.
  - apply reaches_for_each. intros x c Hx w.
    eapply Reach_mono; [|apply advance_row_reaches].
    intros ev. apply sms_event_mono. now intros r <-.
  - intros n. destruct (0 <? n); [|apply reaches_ret].
    destruct dry_run; simpl; [apply reaches_ret|].
    now apply reaches_emit.
Qed.

Lemma start_new_batch_reaches (dry_run : bool) :
  reaches (email_event env rows (fun r => In r (scan_new 0 (skipn 1 rows) [])))
          (start_new_batch env dry_run rows).
Proof.
  unfold start_new_batch.
  destruct (scan_new 0 (skipn 1 rows) []) as [|i idxs] eqn:E; [apply reaches_ret|].
  apply reaches_bind.
  - apply reaches_for_each. intros x c Hx w.
    eapply Reach_mono; [|apply email_row_reaches].
    intros ev. apply email_event_mono. now intros r <-.
  - intros n. destruct (0 <? n); [|apply reaches_ret].
    destruct dry_run; simpl; [apply reaches_ret|].
    now apply reaches_emit.
Qed.

End Allowed.

(** Without a client, and without the rows, a run stops before it does
    anything. *)
Lemma main_without_client (env : Env) (dry_run : bool) (w : World) :
  client_ok env = false -> main env dry_run w = (inl ValueError, w).
Proof.
  intros Hc. unfold main, bind, GoogleSheetClient. now rewrite Hc.
Qed.

Lemma main_without_rows (env : Env) (dry_run : bool) (w : World) :
  client_ok env = true -> read_ok env = false ->
  main env dry_run w = (inl SheetsError, w).
Proof.
  intros Hc Hr. unfold main, bind, GoogleSheetClient, read_all_rows.
  now rewrite Hc, Hr.
Qed.

Lemma main_reaches (env : Env) (dry_run : bool) (w : World) :
  Reach (main_event env (sheet w)) w (snd (main env dry_run w)).
Proof.
  destruct (client_ok env) eqn:Hc;
    [|rewrite main_without_client by assumption; apply Reach_refl].
  destruct (read_ok env) eqn:Hr;
    [|rewrite main_without_rows by assumption; apply Reach_refl].
  unfold main, bind, GoogleSheetClient, read_all_rows, main_event.
  rewrite Hc, Hr. cbn [ret].
  destruct (sheet w) as [|h data] eqn:Hs; [apply Reach_refl|].
  destruct (scan_active 0 (skipn 1 (h :: data))) as [|i idxs] eqn:Ha.
  - apply start_new_batch_reaches.
  - apply advance_active_batch_reaches.
Qed.

(** ** The scans *)

Lemma nth_skipn_1 (rows : Sheet) (j : nat) :
  nth j (skipn 1 rows) [] = nth (S j) rows [].
Proof. destruct rows as [|h data]; [now destruct j|reflexivity]. Qed.

Lemma length_skipn_1 (rows : Sheet) :
  List.length (skipn 1 rows) = List.length rows - 1.
Proof. destruct rows; simpl; lia. Qed.

Lemma scan_active_In (data : list Row) (i r : nat) :
  In r (scan_active i data) <->
  exists j, r = i + j + 1 /\ j < List.length data
            /\ get_status (nth j data []) = "Email Sent".
Proof.
  revert i; induction data as [|row rest IH]; intros i; simpl.
  - split; [tauto|]. intros [j [_ [H _]]]; lia.
  - destruct (String.eqb_spec (get_status row) "Email Sent") as [E|E].
    + simpl. rewrite IH. split.
      * intros [<-|[j [-> [Hj Hs]]]].
        -- exists 0. repeat split; auto; lia.
        -- exists (S j). repeat split; auto; lia.
      * intros [[|j] [-> [Hj Hs]]]; [left; lia|right].
        exists j. repeat split; auto; lia.
    + rewrite IH. split.
      * intros [j [-> [Hj Hs]]]. exists (S j). repeat split; auto; lia.
      * intros [[|j] [-> [Hj Hs]]]; [contradiction|].
        exists j. repeat split; auto; lia.
Qed.

Lemma eligible_indices_In (data : list Row) (i r : nat) :
  In r (eligible_indices i data) <->
  exists j, r = i + j + 1 /\ j < List.length data /\ is_new (nth j data []) = true.
Proof.
  revert i; induction data as [|row rest IH]; intros i; simpl.
  - split; [tauto|]. intros [j [_ [H _]]]; lia.
  - destruct (is_new row) eqn:E.
    + simpl. rewrite IH. split.
      * intros [<-|[j [-> [Hj Hs]]]].
        -- exists 0. repeat split; auto; lia.
        -- exists (S j). repeat split; auto; lia.
      * intros [[|j] [-> [Hj Hs]]]; [left; lia|right].
        exists j. repeat split; auto; lia.
    + rewrite IH. split.
      * intros [j [-> [Hj Hs]]]. exists (S j). repeat split; auto; lia.
      * intros [[|j] [-> [Hj Hs]]]; [congruence|].
        exists j. repeat split; auto; lia.
Qed.

(** Row [r] of the tab is a data row of the active batch. *)
Lemma active_row_iff (rows : Sheet) (r : nat) :
  In r (scan_active 0 (skipn 1 rows)) <->
  1 <= r < List.length rows /\ get_status (nth r rows []) = "Email Sent".
Proof.
  rewrite scan_active_In. split.
  - intros [j [-> [Hj Hs]]]. rewrite length_skipn_1 in Hj. rewrite nth_skipn_1 in Hs.
    replace (0 + j + 1) with (S j) by lia. split; [lia|assumption].
  - intros [[H1 H2] Hs]. exists (r - 1). rewrite length_skipn_1, nth_skipn_1.
    replace (S (r - 1)) with r by lia. repeat split; auto; lia.
Qed.

Lemma eligible_row_iff (rows : Sheet) (r : nat) :
  In r (eligible_indices 0 (skipn 1 rows)) <->
  1 <= r < List.length rows /\ is_new (nth r rows []) = true.
Proof.
  rewrite eligible_indices_In. split.
  - intros [j [-> [Hj Hs]]]. rewrite length_skipn_1 in Hj. rewrite nth_skipn_1 in Hs.
    replace (0 + j + 1) with (S j) by lia. split; [lia|assumption].
  - intros [[H1 H2] Hs]. exists (r - 1). rewrite length_skipn_1, nth_skipn_1.
    replace (S (r - 1)) with r by lia. repeat split; auto; lia.
Qed.

(** The loop with its [break] is the first [BATCH_SIZE] entries of the
    list of eligible rows. *)
Lemma scan_new_firstn (data : list Row) (i : nat) (acc : list nat) :
  List.length acc < BATCH_SIZE ->
  scan_new i data acc = firstn BATCH_SIZE (acc ++ eligible_indices i data).
Proof.
  revert i acc; induction data as [|row rest IH]; intros i acc Hacc;
    cbn [scan_new eligible_indices].
  - rewrite app_nil_r, firstn_all2; [reflexivity|lia].
  - fold (is_new row). destruct (is_new row).
    + destruct (Nat.leb_spec BATCH_SIZE (List.length (acc ++ [i + 1]))) as [Hfull|Hroom].
      * replace (acc ++ (i + 1) :: eligible_indices (S i) rest)
          with ((acc ++ [i + 1]) ++ eligible_indices (S i) rest)
          by now rewrite <- app_assoc.
        assert (Hlen : BATCH_SIZE = List.length (acc ++ [i + 1]) + 0)
          by (rewrite length_app in *; cbn [List.length] in *; lia).
        rewrite Hlen, firstn_app_2.
        cbn [firstn]. now rewrite app_nil_r.
      * rewrite IH by assumption. now rewrite <- app_assoc.
    + now apply IH.
Qed.

Lemma new_batch_firstn (rows : Sheet) :
  scan_new 0 (skipn 1 rows) [] =
  firstn BATCH_SIZE (eligible_indices 0 (skipn 1 rows)).
Proof. apply (scan_new_firstn _ 0 []). unfold BATCH_SIZE; simpl; lia. Qed.

Lemma eligible_indices_sorted (data : list Row) (i : nat) :
  StronglySorted lt (eligible_indices i data)
  /\ Forall (fun r => i < r) (eligible_indices i data).
Proof.
  revert i; induction data as [|row rest IH]; intros i; simpl.
  - split; constructor.
  - destruct (IH (S i)) as [Hs Hf].
    assert (Hf' : Forall (fun r => i < r) (eligible_indices (S i) rest))
      by (eapply Forall_impl; [|exact Hf]; simpl; intros; lia).
    destruct (is_new row); [|now split].
    split.
    + constructor; [assumption|].
      eapply Forall_impl; [|exact Hf]; simpl; intros; lia.
    + constructor; [lia|assumption].
Qed.

Lemma In_firstn {A : Type} (n : nat) (l : list A) (a : A) :
  In a (firstn n l) -> In a l.
Proof.
  revert l; induction n as [|n IH]; intros [|h t]; simpl; try tauto.
  intros [->|H]; [now left|right; now apply IH].
Qed.

Lemma sorted_firstn_closed (l : list nat) (n a b : nat) :
  StronglySorted lt l -> In a (firstn n l) -> In b l -> b < a -> In b (firstn n l).
Proof.
  intros Hs; revert n; induction Hs as [|x l Hs IH Hx]; intros n Ha Hb Hlt.
  - now rewrite firstn_nil in Ha.
  - destruct n as [|n]; [contradiction|]. simpl in *.
    destruct Hb as [->|Hb]; [now left|].
    destruct Ha as [->|Ha].
    + rewrite Forall_forall in Hx. apply Hx in Hb. lia.
    + right. now apply IH.
Qed.

(** ** Runs *)

Lemma untouched_intro (env : Env) (dry_run : bool) (rows : Sheet) (r : nat) :
  (forall ev, main_event env rows ev -> ~ about r ev) ->
  untouched env dry_run rows r.
Proof.
  intros Hno. unfold untouched, after_run.
  pose proof (main_reaches env dry_run (start rows)) as HR. simpl in HR.
  destruct (Reach_log _ _ _ HR) as [evs [El Fl]]. simpl in El.
  destruct (Reach_untouched _ r _ _
              (fun tab c v H => Hno (UpdateCell tab r c v) H eq_refl) HR)
    as [Hs [hs [Eh Fh]]].
  simpl in *. rewrite El, Eh. repeat split; auto.
  eapply Forall_impl; [|exact Fl]. exact Hno.
Qed.

Lemma main_event_active (env : Env) (rows : Sheet) (ev : Event) (r : nat) :
  scan_active 0 (skipn 1 rows) <> [] ->
  main_event env rows ev -> about r ev ->
  get_status (nth r rows []) = "Email Sent" /\ sms_ready env rows r.
Proof.
  unfold main_event. destruct (scan_active 0 (skipn 1 rows)) as [|i idxs] eqn:E;
    [congruence|]. intros _.
  rewrite <- E. destruct ev as [r' cid ty body subj|tab r' c v|msg]; simpl;
    [| |contradiction].
  - intros [Hin [Hready _]] ->. split; [now apply active_row_iff in Hin|assumption].
  - intros [Hin [Hready _]] ->. split; [now apply active_row_iff in Hin|assumption].
Qed.

Lemma main_event_new (env : Env) (rows : Sheet) (ev : Event) (r : nat) :
  scan_active 0 (skipn 1 rows) = [] ->
  main_event env rows ev -> about r ev ->
  In r (scan_new 0 (skipn 1 rows) []) /\ has_contact rows r.
Proof.
  unfold main_event. intros ->.
  destruct ev as [r' cid ty body subj|tab r' c v|msg]; simpl; [| |contradiction].
  - now intros [Hin [Hc _]] ->.
  - now intros [Hin [Hc _]] ->.
Qed.

Lemma selected_is_new (rows : Sheet) (r : nat) :
  In r (scan_new 0 (skipn 1 rows) []) ->
  1 <= r < List.length rows /\ is_new (nth r rows []) = true.
Proof.
  rewrite new_batch_firstn. intros H. apply In_firstn in H.
  now apply eligible_row_iff.
Qed.

Lemma is_new_iff (row : Row) :
  is_new row = true <-> get_status row = "New" \/ get_status row = "".
Proof.
  unfold is_new. rewrite orb_true_iff.
  now rewrite !String.eqb_eq.
Qed.

(** A call about a row tells the status the row had when the run began. *)
Lemma main_event_status (env : Env) (rows : Sheet) (ev : Event) (r : nat) :
  main_event env rows ev -> about r ev ->
  get_status (nth r rows []) = "Email Sent"
  \/ get_status (nth r rows []) = "New" \/ get_status (nth r rows []) = "".
Proof.
  intros Hev Hab.
  destruct (scan_active 0 (skipn 1 rows)) as [|i idxs] eqn:E.
  - right. apply is_new_iff.
    now apply (selected_is_new rows r), (main_event_new env rows ev).
  - left. apply (main_event_active env rows ev r); auto. congruence.
Qed.

(** ** Dry runs *)

Lemma for_each_pure (xs : list nat) (body : nat -> nat -> M nat) :
  (forall x c w, snd (body x c w) = w) ->
  forall c w, snd (for_each xs body c w) = w.
Proof.
  intros Hbody. induction xs as [|x rest IH]; intros c w; simpl; [reflexivity|].
  unfold bind. specialize (Hbody x c w).
  destruct (body x c w) as [[e|c'] w']; simpl in *; subst; [reflexivity|apply IH].
Qed.

Lemma advance_row_dry (env : Env) (rows : Sheet) (r c : nat) (w : World) :
  snd (advance_row env true rows r c w) = w.
Proof.
  unfold advance_row.
  destruct (falsy (get_contact_id _)); [reflexivity|].
  destruct (falsy (get_date_sent _)); [reflexivity|].
  destruct (fromisoformat env _) as [[t|t o]|]; try reflexivity.
  unfold bind, lift; simpl.
  now destruct (Z.ltb _ _).
Qed.

Lemma email_row_dry (env : Env) (rows : Sheet) (r c : nat) (w : World) :
  snd (email_row env true rows r c w) = w.
Proof.
  unfold email_row. now destruct (falsy (get_contact_id _)).
Qed.

Lemma main_dry (env : Env) (w : World) : snd (main env true w) = w.
Proof.
  destruct (client_ok env) eqn:Hc;
    [|now rewrite main_without_client by assumption].
  destruct (read_ok env) eqn:Hr;
    [|now rewrite main_without_rows by assumption].
  unfold main, bind, GoogleSheetClient, read_all_rows.
  rewrite Hc, Hr. cbn [ret].
  destruct (sheet w) as [|h data]; [reflexivity|].
  destruct (scan_active 0 (skipn 1 (h :: data))) as [|i idxs].
  - unfold start_new_batch.
    destruct (scan_new 0 (skipn 1 (h :: data)) []) as [|j sel]; [reflexivity|].
    unfold bind.
    pose proof (for_each_pure (j :: sel) (email_row env true (h :: data))
                              (email_row_dry env (h :: data)) 0 w) as H.
    destruct (for_each (j :: sel) _ 0 w) as [[e|n] w']; simpl in *; subst;
      [reflexivity|]. now destruct (0 <? n).
  - unfold advance_active_batch, bind.
    pose proof (for_each_pure (i :: idxs) (advance_row env true (h :: data))
                              (advance_row_dry env (h :: data)) 0 w) as H.
    destruct (for_each (i :: idxs) _ 0 w) as [[e|n] w']; simpl in *; subst;
      [reflexivity|]. now destruct (0 <? n).
Qed.

(** C4. Whatever the tab holds and whichever branch runs, a run with
    [dry_run = true] makes no call at all: the log of calls
    ([update_cell], [send_ghl_message], [send_notification]) stays empty
    and the tab never changes. *)
Theorem dry_run_makes_no_call (env : Env) (rows : Sheet) :
  log (after_run env true rows) = []
  /\ sheet (after_run env true rows) = rows
  /\ history (after_run env true rows) = [].
Proof.
  unfold after_run. now rewrite main_dry.
Qed.

(** ** The two branches exclude each other *)

Lemma main_active_steps (env : Env) (dry_run : bool) (rows : Sheet) :
  scan_active 0 (skipn 1 rows) <> [] ->
  main env dry_run (start rows) =
  (GoogleSheetClient env ;;
   _ <- read_all_rows env TAB_NAME ;;
   advance_active_batch env dry_run rows (scan_active 0 (skipn 1 rows))) (start rows).
Proof.
  intros Hne. unfold main, bind, GoogleSheetClient, read_all_rows.
  destruct (client_ok env); [|reflexivity]. cbn [ret].
  destruct (read_ok env); [|reflexivity]. cbn [start sheet].
  destruct rows as [|h data]; [now destruct Hne|].
  cbn [skipn] in *.
  destruct (scan_active 0 data) eqn:E; [now destruct Hne|reflexivity].
Qed.

Lemma main_active_branch (env : Env) (dry_run : bool) (rows : Sheet) :
  client_ok env = true -> read_ok env = true ->
  scan_active 0 (skipn 1 rows) <> [] ->
  main env dry_run (start rows) =
  advance_active_batch env dry_run rows (scan_active 0 (skipn 1 rows)) (start rows).
Proof.
  intros Hc Hr Hne. rewrite main_active_steps by assumption.
  unfold bind, GoogleSheetClient, read_all_rows. now rewrite Hc, Hr.
Qed.

(** C2. When some data row has status "Email Sent", the run is the client,
    the read and then the step that advances the active batch, and nothing
    else: every call it makes is
    a call of that step (an SMS or a status write for an active row), and a
    row whose status is "New" or empty is not in the list the run goes
    through, gets no message and no write, and keeps its cells. *)
Theorem active_batch_excludes_new_rows
        (env : Env) (dry_run : bool) (rows : Sheet) (a r : nat) :
  1 <= a < List.length rows ->
  get_status (nth a rows []) = "Email Sent" ->
  get_status (nth r rows []) = "New" \/ get_status (nth r rows []) = "" ->
  main env dry_run (start rows) =
    (GoogleSheetClient env ;;
     _ <- read_all_rows env TAB_NAME ;;
     advance_active_batch env dry_run rows (scan_active 0 (skipn 1 rows))) (start rows)
  /\ Forall (sms_event env rows (fun i => In i (scan_active 0 (skipn 1 rows))))
            (log (after_run env dry_run rows))
  /\ ~ In r (scan_active 0 (skipn 1 rows))
  /\ untouched env dry_run rows r.
Proof.
  intros Ha Hsa Hr.
  assert (Hin : In a (scan_active 0 (skipn 1 rows))) by now apply active_row_iff.
  assert (Hne : scan_active 0 (skipn 1 rows) <> [])
    by (intros E; now rewrite E in Hin).
  assert (Hnot : get_status (nth r rows []) <> "Email Sent")
    by (destruct Hr as [E|E]; rewrite E; discriminate).
  split; [now apply main_active_steps|]. split; [|split].
  - unfold after_run.
    pose proof (main_reaches env dry_run (start rows)) as HR.
    destruct (Reach_log _ _ _ HR) as [evs [El Fl]]. simpl in El. rewrite El.
    eapply Forall_impl; [|exact Fl]. cbn [start sheet]. unfold main_event.
    destruct (scan_active 0 (skipn 1 rows)); [now destruct Hne|auto].
  - intros H. now apply active_row_iff in H.
  - apply untouched_intro. intros ev Hev Hab.
    now destruct (main_event_active env rows ev r Hne Hev Hab).
Qed.

Lemma active_batch_excludes_new_rows_witness :
  ~ In 2 (scan_active 0 (skipn 1 [header; due_row; jane]))
  /\ untouched all_ok false [header; due_row; jane] 2.
Proof.
  apply (active_batch_excludes_new_rows all_ok false [header; due_row; jane] 1 2).
  - simpl; lia.
  - reflexivity.
  - right; reflexivity.
Defined.

(** ** Rows still inside the delay *)

(** C6. A row with status "Email Sent" whose date reads as a time later
    than [now - 24h] is skipped: no message, no write, and the row (so its
    status and its date) is the same after the run and all along. *)
Theorem waiting_row_is_left_alone
        (env : Env) (dry_run : bool) (rows : Sheet) (r : nat) (d : string) (t : Z) :
  get_status (nth r rows []) = "Email Sent" ->
  get_date_sent (nth r rows []) = Some d ->
  fromisoformat env d = Some (Naive t) ->
  (now env r - timedelta_hours DELAY_HOURS < t)%Z ->
  untouched env dry_run rows r
  /\ get_status (nth r (sheet (after_run env dry_run rows)) []) = "Email Sent"
  /\ get_date_sent (nth r (sheet (after_run env dry_run rows)) []) = Some d.
Proof.
  intros Hs Hd Hp Hlate.
  assert (Hu : untouched env dry_run rows r).
  { apply untouched_intro. intros ev Hev Hab.
    destruct (scan_active 0 (skipn 1 rows)) as [|i idxs] eqn:E.
    - destruct (main_event_new env rows ev r E Hev Hab) as [Hsel _].
      apply selected_is_new in Hsel. destruct Hsel as [_ Hnew].
      apply is_new_iff in Hnew. rewrite Hs in Hnew.
      destruct Hnew; discriminate.
    - assert (Hne : scan_active 0 (skipn 1 rows) <> []) by congruence.
      destruct (main_event_active env rows ev r Hne Hev Hab)
        as [_ [_ [_ [t' [Hp' Hdue]]]]].
      rewrite Hd in Hp'. simpl in Hp'. rewrite Hp in Hp'.
      injection Hp' as <-. lia. }
  split; [assumption|].
  destruct Hu as [_ [Hrow _]]. unfold same_row in Hrow. now rewrite Hrow.
Qed.

Lemma waiting_row_is_left_alone_witness :
  untouched all_ok false [header; waiting_row] 1
  /\ get_status (nth 1 (sheet (after_run all_ok false [header; waiting_row])) [])
     = "Email Sent"
  /\ get_date_sent (nth 1 (sheet (after_run all_ok false [header; waiting_row])) [])
     = Some "2024-02-29T23:00:00".
Proof.
  apply (waiting_row_is_left_alone all_ok false [header; waiting_row] 1
           "2024-02-29T23:00:00" (t0 - timedelta_hours 10)).
  - reflexivity.
  - reflexivity.
  - vm_compute; reflexivity.
  - vm_compute; reflexivity.
Defined.

(** ** Statuses only move forward *)

(** C5. For every row, the status after a run is the status before it or
    one step along an allowed edge; a row at "Done", "Email Failed" or
    "SMS Failed" gets no write and no message at all.  The status of a row
    is read as the program reads it, by [get_status]. *)
Theorem status_only_moves_forward
        (env : Env) (dry_run : bool) (rows : Sheet) (r : nat) :
  (get_status (nth r (sheet (after_run env dry_run rows)) []) = get_status (nth r rows [])
   \/ edge (get_status (nth r rows []))
           (get_status (nth r (sheet (after_run env dry_run rows)) [])))
  /\ (get_status (nth r rows []) = "Done"
      \/ get_status (nth r rows []) = "Email Failed"
      \/ get_status (nth r rows []) = "SMS Failed" ->
      untouched env dry_run rows r).
Proof.
  split.
  - unfold after_run.
    pose proof (main_reaches env dry_run (start rows)) as HR. simpl in HR.
    set (P := fun row : Row =>
                get_status row = get_status (nth r rows [])
                \/ edge (get_status (nth r rows [])) (get_status row)).
    apply (Reach_row _ P r _ _) in HR; [exact (proj1 HR)| |now left].
    intros tab c v row Hok HP. unfold P in *.
    destruct (scan_active 0 (skipn 1 rows)) as [|i idxs] eqn:E.
    + destruct (main_event_new env rows _ r E Hok eq_refl) as [Hsel _].
      apply selected_is_new in Hsel. destruct Hsel as [_ Hnew].
      apply is_new_iff in Hnew.
      unfold main_event in Hok. rewrite E in Hok. cbn [email_event] in Hok.
      destruct Hok as [_ [_ [_ [[-> [->| ->]]|[-> ->]]]]].
      * right. rewrite get_status_set_status. now apply edge_email_sent.
      * right. rewrite get_status_set_status. now apply edge_email_failed.
      * now rewrite get_status_set_date.
    + assert (Hne : scan_active 0 (skipn 1 rows) <> []) by congruence.
      destruct (main_event_active env rows _ r Hne Hok eq_refl) as [Hs _].
      unfold main_event in Hok. rewrite E in Hok. cbn [sms_event] in Hok.
      destruct Hok as [_ [_ [_ [-> [->| ->]]]]];
        right; rewrite get_status_set_status, Hs; constructor.
  - intros Hterm. apply untouched_intro. intros ev Hev Hab.
    destruct (main_event_status env rows ev r Hev Hab) as [E|[E|E]];
      rewrite E in Hterm; destruct Hterm as [H|[H|H]]; discriminate.
Qed.

(** ** Selection of a new batch *)

Lemma unselected_new_row_untouched (env : Env) (dry_run : bool) (rows : Sheet) (r : nat) :
  is_new (nth r rows []) = true ->
  ~ In r (scan_new 0 (skipn 1 rows) []) ->
  untouched env dry_run rows r.
Proof.
  intros Hnew Hsel. apply untouched_intro. intros ev Hev Hab.
  destruct (scan_active 0 (skipn 1 rows)) as [|i idxs] eqn:E.
  - now destruct (main_event_new env rows ev r E Hev Hab).
  - assert (Hne : scan_active 0 (skipn 1 rows) <> []) by congruence.
    destruct (main_event_active env rows ev r Hne Hev Hab) as [Hs _].
    apply is_new_iff in Hnew. rewrite Hs in Hnew. destruct Hnew; discriminate.
Qed.

(** C3. The rows selected for a new batch are the first [BATCH_SIZE] = 30
    entries of the list of eligible rows (status "New" or empty) in row
    order: at most 30, all of them eligible data rows, every eligible row
    before a selected one selected too; an eligible row that is not
    selected gets no message and no write in the run. *)
Theorem new_batch_takes_first_eligible_rows
        (env : Env) (dry_run : bool) (rows : Sheet) :
  scan_new 0 (skipn 1 rows) [] = firstn BATCH_SIZE (eligible_indices 0 (skipn 1 rows))
  /\ List.length (scan_new 0 (skipn 1 rows) [])
     = Nat.min 30 (List.length (eligible_indices 0 (skipn 1 rows)))
  /\ List.length (scan_new 0 (skipn 1 rows) []) <= 30
  /\ (forall r, In r (scan_new 0 (skipn 1 rows) []) ->
                1 <= r < List.length rows /\ is_new (nth r rows []) = true)
  /\ (forall r r', In r (scan_new 0 (skipn 1 rows) []) ->
                   1 <= r' < r -> is_new (nth r' rows []) = true ->
                   In r' (scan_new 0 (skipn 1 rows) []))
  /\ (forall r, is_new (nth r rows []) = true ->
                ~ In r (scan_new 0 (skipn 1 rows) []) ->
                untouched env dry_run rows r).
Proof.
  assert (Hlen : List.length (scan_new 0 (skipn 1 rows) [])
                 = Nat.min 30 (List.length (eligible_indices 0 (skipn 1 rows))))
    by (rewrite new_batch_firstn; apply length_firstn).
  split; [apply new_batch_firstn|]. split; [exact Hlen|].
  split; [rewrite Hlen; apply Nat.le_min_l|].
  split; [apply selected_is_new|]. split.
  - intros r r' Hsel Hlt Hnew. pose proof (selected_is_new rows r Hsel) as [Hr _].
    rewrite new_batch_firstn in *.
    apply (sorted_firstn_closed (eligible_indices 0 (skipn 1 rows)) BATCH_SIZE r r').
    + apply eligible_indices_sorted.
    + assumption.
    + apply eligible_row_iff. split; [lia|assumption].
    + lia.
  - apply unselected_new_row_untouched.
Qed.

(** ** Classification of a row by its status *)

Lemma get_status_spec (row : Row) :
  get_status row =
  match nth_error row STATUS_COL_IDX with
  | Some cell => Str.strip cell
  | None => ""
  end.
Proof.
  unfold get_status.
  destruct (Nat.ltb_spec STATUS_COL_IDX (List.length row)) as [H|H].
  - now rewrite (nth_error_nth' row "" H).
  - apply nth_error_None in H. now rewrite H.
Qed.

(** C8, as the specification states it, fails: the status cell of [padded]
    is not the text "Email Sent", yet the scan for the active batch takes
    the row. *)
Lemma padded_status_counts_as_active :
  nth_error padded STATUS_COL_IDX = Some " Email Sent "
  /\ nth_error padded STATUS_COL_IDX <> Some "Email Sent"
  /\ scan_active 0 [padded] = [1].
Proof.
  split; [reflexivity|]. split; [discriminate|reflexivity].
Qed.

(** C8, amended.  The status cell is compared after [strip()], exactly and
    with case: the row at position [i] of the data rows is taken as active
    when its stripped status cell is "Email Sent", and passes the test for
    a new row when it has no status cell or the stripped cell is "New" or
    empty; the rows selected for a new batch all pass that test, and every
    row that passes it is selected while there are at most [BATCH_SIZE]
    such rows. *)
Theorem classification_compares_stripped_status
        (data : list Row) (i : nat) (row : Row) :
  nth_error data i = Some row ->
  (In (i + 1) (scan_active 0 data) <->
   exists cell, nth_error row STATUS_COL_IDX = Some cell /\ Str.strip cell = "Email Sent")
  /\ (is_new row = true <->
      nth_error row STATUS_COL_IDX = None
      \/ exists cell, nth_error row STATUS_COL_IDX = Some cell
                      /\ (Str.strip cell = "New" \/ Str.strip cell = ""))
  /\ (In (i + 1) (scan_new 0 data []) -> is_new row = true)
  /\ (List.length (eligible_indices 0 data) <= BATCH_SIZE ->
      is_new row = true -> In (i + 1) (scan_new 0 data [])).
Proof.
  intros Hrow.
  assert (Hi : i < List.length data) by (apply nth_error_Some; congruence).
  assert (Hnth : nth i data [] = row) by now apply nth_error_nth.
  assert (Hel : In (i + 1) (eligible_indices 0 data) <-> is_new row = true).
  { rewrite eligible_indices_In. split.
    - intros [j [Hj [_ Hn]]]. assert (j = i) by lia. subst j. now rewrite Hnth in Hn.
    - intros Hn. exists i. rewrite Hnth. repeat split; auto. }
  assert (Hscan : scan_new 0 data [] = firstn BATCH_SIZE (eligible_indices 0 data))
    by (apply (scan_new_firstn data 0 []); unfold BATCH_SIZE; simpl; lia).
  split; [|split; [|split]].
  - rewrite scan_active_In. split.
    + intros [j [Hj [_ Hs]]]. assert (j = i) by lia. subst j.
      rewrite Hnth, get_status_spec in Hs.
      destruct (nth_error row STATUS_COL_IDX) as [cell|]; [|discriminate].
      now exists cell.
    + intros [cell [Hc Hs]]. exists i. rewrite Hnth, get_status_spec, Hc.
      repeat split; auto.
  - rewrite is_new_iff, get_status_spec.
    destruct (nth_error row STATUS_COL_IDX) as [cell|].
    + split.
      * intros H. right. now exists cell.
      * intros [H|[cell' [[= <-] H]]]; [discriminate|assumption].
    + split; [now left|now right].
  - rewrite Hscan. intros H. apply In_firstn in H. now apply Hel.
  - intros Hfew Hn. rewrite Hscan, firstn_all2 by assumption. now apply Hel.
Qed.

Lemma classification_compares_stripped_status_witness :
  nth_error [padded] 0 = Some padded
  /\ In (0 + 1) (scan_active 0 [padded]).
Proof.
  split; [reflexivity|].
  apply (proj1 (classification_compares_stripped_status [padded] 0 padded eq_refl)).
  exists " Email Sent ". split; reflexivity.
Defined.

(** ** Personalisation *)

Lemma get_first_name_spec (row : Row) :
  get_first_name row =
  match nth_error row FIRST_NAME_COL_IDX with
  | Some v => v
  | None => "there"
  end.
Proof.
  unfold get_first_name.
  destruct (Nat.ltb_spec FIRST_NAME_COL_IDX (List.length row)) as [H|H].
  - now rewrite (nth_error_nth' row "" H).
  - apply nth_error_None in H. now rewrite H.
Qed.

(** Every message of a run, in either branch, is the template of its
    channel filled with the first-name cell of its row, whatever that cell
    holds. *)
Lemma message_carries_first_name_cell
      (env : Env) (dry_run : bool) (rows : Sheet)
      (r : nat) (cid ty body : string) (subj : option string) :
  In (SendMessage r cid ty body subj) (log (after_run env dry_run rows)) ->
  (ty = "SMS" /\ body = Str.format SMS_BODY_TEMPLATE (get_first_name (nth r rows [])))
  \/ (ty = "Email"
      /\ body = Str.format EMAIL_BODY_TEMPLATE (get_first_name (nth r rows []))).
Proof.
  intros Hin. unfold after_run in Hin.
  pose proof (main_reaches env dry_run (start rows)) as HR.
  destruct (Reach_log _ _ _ HR) as [evs [El Fl]]. simpl in El. rewrite El in Hin.
  rewrite Forall_forall in Fl. specialize (Fl _ Hin). cbn [start sheet] in Fl.
  unfold main_event in Fl.
  destruct (scan_active 0 (skipn 1 rows));
    cbn [email_event sms_event] in Fl; tauto.
Qed.

(** C9 fails on the program.  The row [nameless] has a contact id and a
    blank first-name cell, so its first-name value is absent; the guard of
    lines 78 and 145 looks at the length of the row only, the name used is
    the blank cell, and the e-mail that goes out greets with "Hi ," and
    not with "Hi there,".  The default "there" is the name of rows with
    fewer than two cells only, which have no contact id and get no
    message. *)
Theorem blank_first_name_is_sent_as_it_is :
  nth_error nameless FIRST_NAME_COL_IDX = Some ""
  /\ get_first_name nameless = ""
  /\ get_first_name ["Cy Doe"] = "there"
  /\ exists body,
       nth_error (log (after_run all_ok false [header; nameless])) 0
       = Some (SendMessage 1 "c5" "Email" body (Some EMAIL_SUBJECT))
       /\ index 0 "<p>Hi ,</p>" body <> None
       /\ index 0 "there" body = None
       /\ body <> Str.format EMAIL_BODY_TEMPLATE "there".
Proof.
  split; [reflexivity|]. split; [reflexivity|]. split; [reflexivity|].
  exists (Str.format EMAIL_BODY_TEMPLATE "").
  split; [vm_compute; reflexivity|]. split; [vm_compute; discriminate|].
  split; [vm_compute; reflexivity|].
  apply String.eqb_neq. vm_compute. reflexivity.
Qed.

(** A row that gets a message has a contact id in column 7, so it has a
    first-name cell in column 1: the default "there" never reaches a
    message. *)
Remark messaged_row_has_first_name_cell
       (env : Env) (dry_run : bool) (rows : Sheet) (r : nat) (ev : Event) :
  In ev (log (after_run env dry_run rows)) -> about r ev ->
  nth_error (nth r rows []) FIRST_NAME_COL_IDX <> None.
Proof.
  intros Hin Hab. unfold after_run in Hin.
  pose proof (main_reaches env dry_run (start rows)) as HR.
  destruct (Reach_log _ _ _ HR) as [evs [El Fl]]. simpl in El. rewrite El in Hin.
  rewrite Forall_forall in Fl. specialize (Fl ev Hin). cbn [start sheet] in Fl.
  assert (Hc : has_contact rows r).
  { destruct (scan_active 0 (skipn 1 rows)) as [|i idxs] eqn:E.
    - now apply (main_event_new env rows ev r E).
    - assert (Hne : scan_active 0 (skipn 1 rows) <> []) by congruence.
      now destruct (main_event_active env rows ev r Hne Fl Hab) as [_ [Hc _]]. }
  unfold has_contact, get_contact_id in Hc.
  destruct (Nat.ltb_spec CONTACT_ID_COL_IDX (List.length (nth r rows []))) as [Hlen|Hlen];
    [|discriminate].
  apply nth_error_Some. unfold CONTACT_ID_COL_IDX, FIRST_NAME_COL_IDX in *. lia.
Qed.

(** ** What the calls do when the services answer *)

Lemma update_cell_ok (env : Env) (tab : string) (r c : nat) (v : string) (w : World) :
  write_ok env r c v = true ->
  update_cell env tab r c v w =
  (inr tt, {| sheet := set_cell (sheet w) r c v;
              history := history w ++ [set_cell (sheet w) r c v];
              log := log w ++ [UpdateCell tab r c v] |}).
Proof.
  intros H. unfold update_cell, bind, emit. now rewrite H.
Qed.

Lemma update_cell_fails (env : Env) (tab : string) (r c : nat) (v : string) (w : World) :
  write_ok env r c v = false ->
  update_cell env tab r c v w =
  (inl SheetsError, {| sheet := sheet w; history := history w;
                       log := log w ++ [UpdateCell tab r c v] |}).
Proof.
  intros H. unfold update_cell, bind, emit. now rewrite H.
Qed.

Lemma send_sms (env : Env) (r : nat) (cid body : string) (w : World) :
  send_ghl_message env r cid "SMS" body None w =
  ((if http_ok env r then inr tt else inl MessagingError),
   {| sheet := sheet w; history := history w;
      log := log w ++ [SendMessage r cid "SMS" body None] |}).
Proof.
  unfold send_ghl_message, bind, emit. simpl. now destruct (http_ok env r).
Qed.

Lemma send_email (env : Env) (r : nat) (cid body : string) (w : World) :
  send_ghl_message env r cid "Email" body (Some EMAIL_SUBJECT) w =
  ((if http_ok env r then inr tt else inl MessagingError),
   {| sheet := sheet w; history := history w;
      log := log w ++ [SendMessage r cid "Email" body (Some EMAIL_SUBJECT)] |}).
Proof.
  unfold send_ghl_message, bind, emit. simpl. now destruct (http_ok env r).
Qed.

Lemma get_date_sent_set_status (row : Row) (v : string) :
  get_date_sent (set_nth "" STATUS_COL_IDX v row) = get_date_sent row.
Proof.
  unfold get_date_sent. rewrite set_nth_length.
  rewrite nth_set_nth_other by (unfold STATUS_COL_IDX, DATE_SENT_COL_IDX; lia).
  unfold STATUS_COL_IDX, DATE_SENT_COL_IDX.
  destruct (Nat.ltb_spec 9 (Nat.max 9 (List.length row)));
    destruct (Nat.ltb_spec 9 (List.length row)); (reflexivity || lia).
Qed.

(** ** The write after a first-step e-mail *)

(** C7, as the specification states it, fails: in the run over the row of
    the scenario, with every service answering, the tab goes through a
    content in which the row has status "Email Sent" and an empty date
    cell. *)
Lemma email_sent_is_reached_before_its_date :
  In [header;
      ["Jane Doe"; "Jane"; "j@x.com"; "555-1234"; ""; ""; ""; "c123"; "Email Sent"; ""]]
     (history (after_run all_ok false [header; jane]))
  /\ get_status ["Jane Doe"; "Jane"; "j@x.com"; "555-1234"; ""; ""; ""; "c123";
                 "Email Sent"; ""] = "Email Sent"
  /\ get_date_sent ["Jane Doe"; "Jane"; "j@x.com"; "555-1234"; ""; ""; ""; "c123";
                    "Email Sent"; ""] = Some "".
Proof.
  split; [|split; reflexivity].
  vm_compute. now left.
Qed.

(** C7, amended.  When the first-step e-mail of a selected row is sent and
    the two requests succeed, [update_status] writes the status cell and
    then, by a second request, the date cell: the tab first holds the row
    with status "Email Sent" and the date cell it had, then the row with
    status "Email Sent" and the current ISO-8601 time, and the row is
    counted. *)
Theorem email_sent_then_date_in_two_writes
        (env : Env) (rows : Sheet) (r count : nat) (w : World) :
  falsy (get_contact_id (nth r rows [])) = false ->
  http_ok env r = true ->
  write_ok env r STATUS_COL_IDX "Email Sent" = true ->
  write_ok env r DATE_SENT_COL_IDX (isoformat env (now env r)) = true ->
  let current_time := isoformat env (now env r) in
  let s1 := set_cell (sheet w) r STATUS_COL_IDX "Email Sent" in
  let s2 := set_cell s1 r DATE_SENT_COL_IDX current_time in
  email_row env false rows r count w =
    (inr (count + 1),
     {| sheet := s2;
        history := history w ++ [s1; s2];
        log := log w ++
               [SendMessage r (str_of (get_contact_id (nth r rows []))) "Email"
                            (Str.format EMAIL_BODY_TEMPLATE (get_first_name (nth r rows [])))
                            (Some EMAIL_SUBJECT);
                UpdateCell TAB_NAME r STATUS_COL_IDX "Email Sent";
                UpdateCell TAB_NAME r DATE_SENT_COL_IDX current_time] |})
  /\ get_status (nth r s1 []) = "Email Sent"
  /\ get_date_sent (nth r s1 []) = get_date_sent (nth r (sheet w) [])
  /\ get_status (nth r s2 []) = "Email Sent"
  /\ get_date_sent (nth r s2 []) = Some (Str.strip current_time).
Proof.
  intros Hc Hh Hw1 Hw2 current_time s1 s2. split; [|repeat split].
  - unfold email_row. rewrite Hc. cbn [negb].
    unfold try_except, bind at 1. rewrite send_email, Hh.
    unfold update_status, bind. rewrite update_cell_ok by exact Hw1.
    rewrite update_cell_ok by exact Hw2. cbn [sheet history log ret].
    now rewrite <- !app_assoc.
  - unfold s1. rewrite nth_set_cell, Nat.eqb_refl. now rewrite get_status_set_status.
  - unfold s1. rewrite nth_set_cell, Nat.eqb_refl. apply get_date_sent_set_status.
  - unfold s2, s1. rewrite !nth_set_cell, Nat.eqb_refl.
    now rewrite get_status_set_date, get_status_set_status.
  - unfold s2. rewrite nth_set_cell, Nat.eqb_refl. apply get_date_sent_set_date.
Qed.

Lemma email_sent_then_date_in_two_writes_witness :
  get_status (nth 1 (set_cell [header; jane] 1 STATUS_COL_IDX "Email Sent") [])
  = "Email Sent"
  /\ get_date_sent (nth 1 (set_cell [header; jane] 1 STATUS_COL_IDX "Email Sent") [])
     = get_date_sent jane.
Proof.
  pose proof (email_sent_then_date_in_two_writes all_ok [header; jane] 1 0
                (start [header; jane]) eq_refl eq_refl eq_refl eq_refl)
    as [_ [Hstatus [Hdate _]]].
  split; [exact Hstatus|exact Hdate].
Defined.

(** When the request for the date cell fails, the handler runs; when its
    own request fails too the run stops there, and the row is left with
    status "Email Sent" and no date. *)
Example failed_date_write_leaves_no_date :
  let env := sample_env (fun _ => true) (fun _ c v => (c =? 8) && (v =? "Email Sent")%string) t0 in
  main env false (start [header; jane]) =
  (inl SheetsError,
   {| sheet := [header;
                ["Jane Doe"; "Jane"; "j@x.com"; "555-1234"; ""; ""; ""; "c123";
                 "Email Sent"; ""]];
      history := [[header;
                   ["Jane Doe"; "Jane"; "j@x.com"; "555-1234"; ""; ""; ""; "c123";
                    "Email Sent"; ""]]];
      log := [SendMessage 1 "c123" "Email" (Str.format EMAIL_BODY_TEMPLATE "Jane")
                          (Some EMAIL_SUBJECT);
              UpdateCell TAB_NAME 1 8 "Email Sent";
              UpdateCell TAB_NAME 1 9 "2024-03-01T09:00:00";
              UpdateCell TAB_NAME 1 8 "Email Failed"] |}).
Proof. vm_compute. reflexivity. Qed.

(** ** Slots of a new batch *)

Lemma sends_app (l1 l2 : list Event) : sends (l1 ++ l2) = sends l1 + sends l2.
Proof. unfold sends. now rewrite filter_app, length_app. Qed.

Section Counting.

Lemma sends_ret {A : Type} (a : A) : sends_at_most 0 (ret a).
Proof. intros w; simpl; lia. Qed.

Lemma sends_weaken {A : Type} (k k' : nat) (m : M A) :
  k <= k' -> sends_at_most k m -> sends_at_most k' m.
Proof. intros Hk H w. specialize (H w). lia. Qed.

Lemma sends_bind {A B : Type} (k1 k2 : nat) (m : M A) (f : A -> M B) :
  sends_at_most k1 m -> (forall a, sends_at_most k2 (f a)) ->
  sends_at_most (k1 + k2) (bind m f).
Proof.
  intros Hm Hf w. unfold bind. specialize (Hm w).
  destruct (m w) as [[e|a] w']; simpl in *; [lia|].
  specialize (Hf a w'). lia.
Qed.

Lemma sends_try {A : Type} (k1 k2 : nat) (m : M A) (h : Exn -> M A) :
  sends_at_most k1 m -> (forall e, sends_at_most k2 (h e)) ->
  sends_at_most (k1 + k2) (try_except m h).
Proof.
  intros Hm Hh w. unfold try_except. specialize (Hm w).
  destruct (m w) as [[e|a] w']; simpl in *; [|lia].
  specialize (Hh e w'). lia.
Qed.

Lemma sends_update_status (env : Env) (tab : string) (r c : nat) (v : string)
      (dc : option nat) (dv : option string) :
  sends_at_most 0 (update_status env tab r c v dc dv).
Proof.
  assert (Hcell : forall c v, sends_at_most 0 (update_cell env tab r c v)).
  { intros c0 v0 w. unfold update_cell, bind, emit.
    destruct (write_ok env r c0 v0); simpl; rewrite sends_app; unfold sends; simpl; lia. }
  unfold update_status. apply (sends_bind 0 0); [apply Hcell|]. intros _.
  destruct dc; [destruct dv|]; (apply Hcell || apply sends_ret).
Qed.

Lemma sends_send (env : Env) (r : nat) (cid ty body : string) (subj : option string) :
  sends_at_most 1 (send_ghl_message env r cid ty body subj).
Proof.
  intros w. unfold send_ghl_message, bind, emit.
  destruct (Str.lower ty =? "email")%string; [destruct (falsy subj)|];
    simpl; try destruct (http_ok env r); simpl; rewrite sends_app; unfold sends; simpl; lia.
Qed.

Lemma sends_email_row (env : Env) (dry_run : bool) (rows : Sheet) (r c : nat) :
  sends_at_most (if contactless rows r then 0 else 1) (email_row env dry_run rows r c).
Proof.
  unfold email_row, contactless.
  destruct (falsy (get_contact_id (nth r rows []))); [apply sends_ret|].
  destruct dry_run; cbn [negb];
    [apply (sends_weaken 0); [lia|apply sends_ret]|].
  apply (sends_try 1 0).
  - apply (sends_bind 1 0); [apply sends_send|]. intros _.
    apply (sends_bind 0 0); [apply sends_update_status|]. intros _. apply sends_ret.
  - intros _. apply (sends_bind 0 0); [apply sends_update_status|].
    intros _. apply sends_ret.
Qed.

Lemma sends_email_loop (env : Env) (dry_run : bool) (rows : Sheet) (xs : list nat) (c : nat) :
  sends_at_most (List.length (filter (fun r => negb (contactless rows r)) xs))
                (for_each xs (email_row env dry_run rows) c).
Proof.
  revert c; induction xs as [|x rest IH]; intros c; cbn [for_each filter].
  - apply sends_ret.
  - pose proof (sends_email_row env dry_run rows x c) as Hx.
    destruct (contactless rows x); cbn [negb List.length].
    + apply (sends_bind 0 _); [exact Hx|]. intros c'. apply IH.
    + apply (sends_bind 1 _); [exact Hx|]. intros c'. apply IH.
Qed.

End Counting.

Lemma sends_new_batch (env : Env) (dry_run : bool) (rows : Sheet) :
  scan_active 0 (skipn 1 rows) = [] ->
  sends (log (after_run env dry_run rows))
  <= List.length (filter (fun r => negb (contactless rows r))
                         (scan_new 0 (skipn 1 rows) [])).
Proof.
  intros Hnone. unfold after_run.
  destruct (client_ok env) eqn:Hc;
    [|rewrite main_without_client by assumption; unfold sends; simpl; lia].
  destruct (read_ok env) eqn:Hr;
    [|rewrite main_without_rows by assumption; unfold sends; simpl; lia].
  unfold main, bind, GoogleSheetClient, read_all_rows. rewrite Hc, Hr.
  cbn [ret start sheet].
  destruct rows as [|h data]; [unfold sends; simpl; lia|].
  rewrite Hnone. unfold start_new_batch.
  destruct (scan_new 0 (skipn 1 (h :: data)) []) as [|j sel] eqn:E;
    [unfold sends; simpl; lia|].
  unfold bind.
  pose proof (sends_email_loop env dry_run (h :: data) (j :: sel) 0
                               (start (h :: data))) as H.
  destruct (for_each (j :: sel) _ 0 _) as [[e|n] w']; cbn [snd fst] in *;
    [exact H|].
  destruct (0 <? n); [|exact H].
  destruct dry_run; cbn [negb]; [exact H|].
  unfold send_notification, emit; cbn [snd log]. rewrite sends_app.
  change (sends [Notify _]) with 0. rewrite Nat.add_0_r. exact H.
Qed.

(** C10. In a run that starts a new batch the selection looks at statuses
    only: it is the first [BATCH_SIZE] = 30 eligible rows, with or without
    a contact id.  A selected row without contact id gets no message and no
    write, yet counts among the 30: the messages of the run and the
    selected rows without contact id together are no more than the selected
    rows, so no more than 30.  A row outside the selection is not looked at
    in the run. *)
Theorem batch_slot_taken_at_selection (env : Env) (rows : Sheet) :
  scan_active 0 (skipn 1 rows) = [] ->
  scan_new 0 (skipn 1 rows) [] = firstn BATCH_SIZE (eligible_indices 0 (skipn 1 rows))
  /\ (forall r, In r (scan_new 0 (skipn 1 rows) []) -> contactless rows r = true ->
                untouched env false rows r)
  /\ sends (log (after_run env false rows))
     + List.length (filter (contactless rows) (scan_new 0 (skipn 1 rows) []))
     <= List.length (scan_new 0 (skipn 1 rows) [])
  /\ List.length (scan_new 0 (skipn 1 rows) []) <= 30
  /\ (forall r, ~ In r (scan_new 0 (skipn 1 rows) []) -> untouched env false rows r).
Proof.
  intros Hnone. split; [apply new_batch_firstn|]. split; [|split; [|split]].
  - intros r _ Hc. apply untouched_intro. intros ev Hev Hab.
    destruct (main_event_new env rows ev r Hnone Hev Hab) as [_ Hhas].
    unfold has_contact in Hhas. unfold contactless in Hc. congruence.
  - pose proof (sends_new_batch env false rows Hnone) as H.
    pose proof (filter_length (contactless rows) (scan_new 0 (skipn 1 rows) [])) as HL.
    lia.
  - rewrite new_batch_firstn, length_firstn. apply Nat.le_min_l.
  - intros r Hout. apply untouched_intro. intros ev Hev Hab.
    now destruct (main_event_new env rows ev r Hnone Hev Hab).
Qed.

(** On [crowded] the run sends 29 e-mails although 31 rows are eligible:
    row 1 takes a slot and is skipped, and row 31, eligible and with a
    contact id, is left for a later run. *)
Example crowded_run :
  List.length (eligible_indices 0 (skipn 1 crowded)) = 31
  /\ scan_new 0 (skipn 1 crowded) [] = seq 1 30
  /\ sends (log (after_run all_ok false crowded)) = 29
  /\ nth 31 (sheet (after_run all_ok false crowded)) [] = jane.
Proof. vm_compute. repeat split. Qed.

Lemma batch_slot_taken_at_selection_witness :
  sends (log (after_run all_ok false crowded))
  + List.length (filter (contactless crowded) (scan_new 0 (skipn 1 crowded) []))
  <= List.length (scan_new 0 (skipn 1 crowded) [])
  /\ untouched all_ok false crowded 31.
Proof.
  pose proof (batch_slot_taken_at_selection all_ok crowded eq_refl)
    as [_ [_ [Hcount [_ Hout]]]].
  split; [exact Hcount|]. apply Hout.
  vm_compute. intuition discriminate.
Defined.

(** ** Rows whose delay has run out *)

(** C1 fails on the program.  Row 2 of the tab below has status
    "Email Sent", a contact id and a date more than 24 hours old, and every
    service answers; but the date of row 1 reads as an aware time, the
    subtraction of line 95 raises [TypeError], which nothing catches, and
    the run stops before row 2: no call is made and row 2 stays at
    "Email Sent". *)
Theorem offset_date_stops_the_run :
  get_status (nth 2 [header; offset_row; due_row] []) = "Email Sent"
  /\ falsy (get_contact_id (nth 2 [header; offset_row; due_row] [])) = false
  /\ fromisoformat all_ok (str_of (get_date_sent (nth 2 [header; offset_row; due_row] [])))
     = Some (Naive (t0 - timedelta_hours 49))
  /\ (t0 - timedelta_hours 49 <= now all_ok 2 - timedelta_hours DELAY_HOURS)%Z
  /\ main all_ok false (start [header; offset_row; due_row])
     = (inl TypeError, start [header; offset_row; due_row])
  /\ get_status (nth 2 (sheet (after_run all_ok false [header; offset_row; due_row])) [])
     = "Email Sent".
Proof. vm_compute. repeat split; discriminate. Qed.

(** Without the row that stops the run, the same row is advanced. *)
Example due_row_alone_is_done :
  get_status (nth 1 (sheet (after_run all_ok false [header; due_row])) []) = "Done"
  /\ get_status (nth 1 (sheet (after_run (sample_env (fun _ => false) (fun _ _ _ => true) t0)
                                         false [header; due_row])) []) = "SMS Failed".
Proof. vm_compute. split; reflexivity. Qed.

Section Advance.

Variable env : Env.
Variable rows : Sheet.

(** Every request to the spreadsheet succeeds. *)
Hypothesis writes_succeed : forall r c v, write_ok env r c v = true.

Lemma update_status_plain (tab : string) (r c : nat) (v : string) (w : World) :
  update_status env tab r c v None None w =
  (inr tt, {| sheet := set_cell (sheet w) r c v;
              history := history w ++ [set_cell (sheet w) r c v];
              log := log w ++ [UpdateCell tab r c v] |}).
Proof.
  unfold update_status, bind. now rewrite update_cell_ok by apply writes_succeed.
Qed.

Lemma advance_row_returns (dry_run : bool) (x c : nat) (w : World) :
  no_offset env rows x ->
  exists c' w', advance_row env dry_run rows x c w = (inr c', w').
Proof.
  intros Hno. unfold advance_row.
  destruct (falsy (get_contact_id _)); [now eexists; eexists|].
  destruct (falsy (get_date_sent _)); [now eexists; eexists|].
  destruct (fromisoformat env _) as [[t|t o]|] eqn:Hp;
    [|now destruct (Hno t o)|now eexists; eexists].
  unfold bind at 1, lift. cbn [datetime_sub].
  destruct (Z.ltb _ _); [now eexists; eexists|].
  destruct dry_run; cbn [negb]; [now eexists; eexists|].
  unfold try_except, bind at 1. rewrite send_sms.
  destruct (http_ok env x).
  - unfold bind. rewrite update_status_plain. now eexists; eexists.
  - unfold bind. rewrite update_status_plain. now eexists; eexists.
Qed.

Lemma advance_row_due (r c : nat) (w : World) :
  sms_ready env rows r ->
  exists c' w',
    advance_row env false rows r c w = (inr c', w')
    /\ sheet w' = set_cell (sheet w) r STATUS_COL_IDX (sms_outcome env r).
Proof.
  intros [Hc [Hd [t [Hp Hdue]]]]. unfold has_contact in Hc. unfold advance_row.
  rewrite Hc, Hd, Hp. unfold bind at 1, lift. cbn [datetime_sub].
  destruct (Z.ltb_spec (now env r - t) (timedelta_hours DELAY_HOURS)) as [Hlt|_];
    [lia|]. cbn [negb].
  unfold try_except, bind at 1. rewrite send_sms. unfold sms_outcome.
  destruct (http_ok env r); unfold bind; rewrite update_status_plain;
    eexists; eexists; split; reflexivity.
Qed.

Lemma advance_loop_due (r : nat) :
  sms_ready env rows r ->
  forall xs c w,
    StronglySorted lt xs -> In r xs -> Forall (no_offset env rows) xs ->
    get_status (nth r (sheet (snd (for_each xs (advance_row env false rows) c w))) [])
    = sms_outcome env r.
Proof.
  intros Hready xs. induction xs as [|x rest IH]; intros c w Hs Hin Hno;
    [contradiction|].
  apply StronglySorted_inv in Hs. destruct Hs as [Hs Hx].
  apply Forall_cons_iff in Hno. destruct Hno as [Hnox Hno].
  cbn [for_each]. unfold bind.
  destruct (Nat.eq_dec x r) as [->|Hne].
  - destruct (advance_row_due r c w Hready) as [c' [w' [E Hsheet]]]. rewrite E.
    pose proof (reaches_for_each (sms_event env rows (fun i => In i rest)) rest
                  (advance_row env false rows)) as HR.
    assert (Hbody : forall y k, In y rest ->
              reaches (sms_event env rows (fun i => In i rest))
                      (advance_row env false rows y k)).
    { intros y k Hy w0. eapply Reach_mono; [|apply advance_row_reaches].
      intros ev. apply sms_event_mono. now intros i <-. }
    specialize (HR Hbody c' w').
    apply Reach_untouched with (r := r) in HR.
    + destruct HR as [Hrow _]. rewrite Hrow, Hsheet, nth_set_cell, Nat.eqb_refl.
      rewrite get_status_set_status. unfold sms_outcome.
      now destruct (http_ok env r).
    + intros tab k v [Hmem _]. rewrite Forall_forall in Hx.
      apply Hx in Hmem. lia.
  - destruct Hin as [E|Hin]; [congruence|].
    destruct (advance_row_returns false x c w Hnox) as [c' [w' E]]. rewrite E.
    now apply IH.
Qed.

End Advance.

Lemma scan_active_sorted (data : list Row) (i : nat) :
  StronglySorted lt (scan_active i data)
  /\ Forall (fun r => i < r) (scan_active i data).
Proof.
  revert i; induction data as [|row rest IH]; intros i; simpl.
  - split; constructor.
  - destruct (IH (S i)) as [Hs Hf].
    assert (Hf' : Forall (fun r => i < r) (scan_active (S i) rest))
      by (eapply Forall_impl; [|exact Hf]; simpl; intros; lia).
    destruct (get_status row =? "Email Sent")%string; [|now split].
    split.
    + constructor; [assumption|].
      eapply Forall_impl; [|exact Hf]; simpl; intros; lia.
    + constructor; [lia|assumption].
Qed.

Lemma advance_active_batch_sheet (env : Env) (dry_run : bool) (rows : Sheet)
      (idxs : list nat) (w : World) :
  sheet (snd (advance_active_batch env dry_run rows idxs w))
  = sheet (snd (for_each idxs (advance_row env dry_run rows) 0 w)).
Proof.
  unfold advance_active_batch, bind.
  destruct (for_each idxs _ 0 w) as [[e|n] w']; [reflexivity|].
  destruct (0 <? n); [|reflexivity]. now destruct dry_run.
Qed.

(** What C1 says holds of every run that is not cut short: when the
    client is built, the tab is read, the requests to the spreadsheet
    succeed and no date of the active batch carries an offset, a row at "Email Sent" with a contact id and a date at
    least 24 hours old ends at "Done" when its SMS is accepted and at
    "SMS Failed" when the send raises. *)
Lemma due_row_is_advanced (env : Env) (rows : Sheet) (r : nat) (t : Z) :
  client_ok env = true ->
  read_ok env = true ->
  (forall i c v, write_ok env i c v = true) ->
  (forall x, In x (scan_active 0 (skipn 1 rows)) -> no_offset env rows x) ->
  1 <= r < List.length rows ->
  get_status (nth r rows []) = "Email Sent" ->
  falsy (get_contact_id (nth r rows [])) = false ->
  falsy (get_date_sent (nth r rows [])) = false ->
  fromisoformat env (str_of (get_date_sent (nth r rows []))) = Some (Naive t) ->
  (t <= now env r - timedelta_hours DELAY_HOURS)%Z ->
  get_status (nth r (sheet (after_run env false rows)) [])
  = if http_ok env r then "Done" else "SMS Failed".
Proof.
  intros Hclient Hread Hw Hno Hr Hs Hc Hd Hp Hdue.
  assert (Hin : In r (scan_active 0 (skipn 1 rows))) by now apply active_row_iff.
  assert (Hne : scan_active 0 (skipn 1 rows) <> [])
    by (intros E; now rewrite E in Hin).
  unfold after_run. rewrite main_active_branch by assumption.
  rewrite advance_active_batch_sheet.
  apply (advance_loop_due env rows Hw r); auto.
  - repeat split; auto. exists t. split; [assumption|lia].
  - apply scan_active_sorted.
  - now apply Forall_forall.
Qed.

(** * Further properties of the two files *)

(** ** Which exceptions leave a run *)

Section Raising.

Variable P : Exn -> World -> Prop.

Lemma raises_ret {A : Type} (a : A) : raises_with P (ret a).
Proof. now intros w. Qed.

Lemma raises_try {A : Type} (m : M A) (h : Exn -> M A) :
  (forall e, raises_with P (h e)) -> raises_with P (try_except m h).
Proof.
  intros Hh w. unfold try_except.
  destruct (m w) as [[e|a] w']; [apply Hh|exact I].
Qed.

Lemma raises_bind {A B : Type} (m : M A) (f : A -> M B) :
  raises_with P m -> (forall a, raises_with P (f a)) -> raises_with P (bind m f).
Proof.
  intros Hm Hf w. unfold bind. specialize (Hm w).
  destruct (m w) as [[e|a] w']; [assumption|apply Hf].
Qed.

Lemma raises_for_each (xs : list nat) (body : nat -> nat -> M nat) :
  (forall x c, In x xs -> raises_with P (body x c)) ->
  forall c, raises_with P (for_each xs body c).
Proof.
  induction xs as [|x rest IH]; intros Hbody c; cbn [for_each].
  - apply raises_ret.
  - apply raises_bind; [apply Hbody; now left|].
    intros c'. apply IH. intros y k Hy. apply Hbody. now right.
Qed.

Lemma raises_update_status (env : Env) (tab : string) (r c : nat)
      (v : string) (dc : option nat) (dv : option string) :
  (forall w' l r c v,
      log w' = l ++ [UpdateCell tab r c v] -> write_ok env r c v = false ->
      P SheetsError w') ->
  raises_with P (update_status env tab r c v dc dv).
Proof.
  intros HP.
  assert (Hcell : forall c v, raises_with P (update_cell env tab r c v)).
  { intros c0 v0 w. unfold update_cell, bind, emit.
    destruct (write_ok env r c0 v0) eqn:E; [exact I|].
    unfold raise. apply (HP _ (log w) r c0 v0); [reflexivity|exact E]. }
  unfold update_status. apply raises_bind; [apply Hcell|]. intros _.
  destruct dc; [destruct dv|]; (apply Hcell || apply raises_ret).
Qed.

End Raising.

Lemma abort_cause_write (env : Env) (rows : Sheet) (tab : string) :
  forall w' l r c v,
    log w' = l ++ [UpdateCell tab r c v] -> write_ok env r c v = false ->
    abort_cause env false rows SheetsError w'.
Proof.
  intros w' l r c v Hl Hw. right. split; [reflexivity|]. now exists l, tab, r, c, v.
Qed.

Lemma raises_advance_row (env : Env) (dry_run : bool) (rows : Sheet) (x c : nat) :
  In x (scan_active 0 (skipn 1 rows)) ->
  raises_with (abort_cause env dry_run rows) (advance_row env dry_run rows x c).
Proof.
  intros Hx. unfold advance_row.
  destruct (falsy (get_contact_id _)) eqn:Hc; [apply raises_ret|].
  destruct (falsy (get_date_sent _)) eqn:Hd; [apply raises_ret|].
  destruct (fromisoformat env _) as [[t|t o]|] eqn:Hp; [| |apply raises_ret].
  - intros w. unfold bind at 1, lift. cbn [datetime_sub].
    revert w. destruct (Z.ltb _ _); [apply raises_ret|].
    destruct dry_run; cbn [negb]; [apply raises_ret|].
    apply raises_try. intros _.
    apply raises_bind; [|intros _; apply raises_ret].
    apply raises_update_status. apply abort_cause_write.
  - intros w. unfold bind, lift. cbn [datetime_sub abort_cause].
    now exists x, t, o.
Qed.

Lemma raises_email_row (env : Env) (dry_run : bool) (rows : Sheet) (x c : nat) :
  raises_with (abort_cause env dry_run rows) (email_row env dry_run rows x c).
Proof.
  unfold email_row.
  destruct (falsy (get_contact_id _)); [apply raises_ret|].
  destruct dry_run; cbn [negb]; [apply raises_ret|].
  apply raises_try. intros _.
  apply raises_bind; [|intros _; apply raises_ret].
  apply raises_update_status. apply abort_cause_write.
Qed.

(** X1. How a run can be cut short.  Without usable credentials [main]
    raises [ValueError] before anything else, and when the read request
    fails it raises there, in dry runs too, with nothing done.  Whenever a
    run raises, the cause is one of four: the client could not be built;
    the read failed; the last call of a real run is a write request that
    failed; the date of an active row reads as a time with UTC offset and
    the subtraction of line 95 raised [TypeError].  A failure of the
    messaging call, and the [ValueError] of [send_ghl_message], never leave
    [main]: lines 109 and 160 catch them. *)
Theorem run_stops_for_a_known_cause (env : Env) (dry_run : bool) (w : World) :
  (client_ok env = false -> main env dry_run w = (inl ValueError, w))
  /\ (client_ok env = true -> read_ok env = false ->
      main env dry_run w = (inl SheetsError, w))
  /\ match main env dry_run w with
     | (inl e, w') => abort_cause env dry_run (sheet w) e w'
     | (inr _, _) => True
     end.
Proof.
  split; [apply main_without_client|]. split; [apply main_without_rows|].
  destruct (client_ok env) eqn:Hc;
    [|rewrite main_without_client by assumption; exact Hc].
  destruct (read_ok env) eqn:Hr;
    [|rewrite main_without_rows by assumption; now left].
  unfold main, bind at 1 2, GoogleSheetClient, read_all_rows. rewrite Hc, Hr.
  cbn [ret].
  destruct (sheet w) as [|h data] eqn:Hs; [exact I|].
  destruct (scan_active 0 (skipn 1 (h :: data))) as [|i idxs] eqn:Ha.
  - unfold start_new_batch.
    destruct (scan_new 0 (skipn 1 (h :: data)) []) as [|j sel]; [exact I|].
    apply (raises_bind (abort_cause env dry_run (h :: data))).
    + apply raises_for_each. intros x c _. apply raises_email_row.
    + intros n w'. destruct (0 <? n); [|exact I]. now destruct dry_run.
  - unfold advance_active_batch.
    apply (raises_bind (abort_cause env dry_run (h :: data))).
    + apply raises_for_each. intros x c Hx. apply raises_advance_row.
      now rewrite Ha.
    + intros n w'. destruct (0 <? n); [|exact I]. now destruct dry_run.
Qed.

Lemma run_stops_for_a_known_cause_witness :
  main no_client true (start [header; jane]) = (inl ValueError, start [header; jane])
  /\ main no_rows false (start [header; jane]) = (inl SheetsError, start [header; jane]).
Proof.
  split.
  - apply (proj1 (run_stops_for_a_known_cause no_client true (start [header; jane]))).
    reflexivity.
  - apply (proj1 (proj2 (run_stops_for_a_known_cause no_rows false
                           (start [header; jane])))); reflexivity.
Defined.

(** ** What a run leaves as it is *)

Lemma Reach_sheet (ok : Event -> Prop) (P : Sheet -> Prop) (w0 w : World) :
  (forall tab r c v s, ok (UpdateCell tab r c v) -> P s -> P (set_cell s r c v)) ->
  Reach ok w0 w -> P (sheet w0) -> P (sheet w).
Proof.
  intros Hstep HR H0. induction HR; simpl; eauto.
Qed.

Lemma set_cell_length (s : Sheet) (r c : nat) (v : string) :
  r < List.length s -> List.length (set_cell s r c v) = List.length s.
Proof.
  intros Hr. unfold set_cell. rewrite set_nth_length. lia.
Qed.

Lemma main_event_bounds (env : Env) (rows : Sheet) (ev : Event) (r : nat) :
  main_event env rows ev -> about r ev -> 1 <= r < List.length rows.
Proof.
  intros Hev Hab.
  destruct (scan_active 0 (skipn 1 rows)) as [|i idxs] eqn:E.
  - now apply (selected_is_new rows r), (main_event_new env rows ev r).
  - unfold main_event in Hev. rewrite E in Hev. rewrite <- E in Hev.
    destruct ev as [r' cid ty body subj|tab r' c v|msg]; simpl in Hab; subst;
      [| |contradiction]; cbn [sms_event] in Hev; destruct Hev as [Hin _];
      now apply active_row_iff in Hin.
Qed.

Lemma main_event_column (env : Env) (rows : Sheet) (tab : string) (r c : nat) (v : string) :
  main_event env rows (UpdateCell tab r c v) ->
  c = STATUS_COL_IDX \/ c = DATE_SENT_COL_IDX.
Proof.
  unfold main_event. destruct (scan_active 0 (skipn 1 rows)); cbn [email_event sms_event];
    intuition.
Qed.

Lemma run_length (env : Env) (dry_run : bool) (rows : Sheet) :
  List.length (sheet (after_run env dry_run rows)) = List.length rows.
Proof.
  unfold after_run.
  pose proof (main_reaches env dry_run (start rows)) as HR. cbn [start sheet] in HR.
  apply (Reach_sheet _ (fun s => List.length s = List.length rows)) in HR;
    [exact HR| |reflexivity].
  intros tab r c v s Hok Hs. rewrite set_cell_length; [exact Hs|].
  rewrite Hs. now apply (main_event_bounds env rows _ r Hok).
Qed.

(** X2. A run only ever writes the status and date columns: the tab keeps
    its number of rows, the header row gets no call and no write, and every
    cell outside columns 8 and 9 (names, e-mail, phone, contact id) reads
    the same after the run. *)
Theorem run_changes_only_status_and_date (env : Env) (dry_run : bool) (rows : Sheet) :
  List.length (sheet (after_run env dry_run rows)) = List.length rows
  /\ untouched env dry_run rows 0
  /\ (forall r c, c <> STATUS_COL_IDX -> c <> DATE_SENT_COL_IDX ->
                  nth c (nth r (sheet (after_run env dry_run rows)) []) ""
                  = nth c (nth r rows []) "").
Proof.
  split; [apply run_length|]. split.
  - apply untouched_intro. intros ev Hev Hab.
    pose proof (main_event_bounds env rows ev 0 Hev Hab). lia.
  - intros r c Hc8 Hc9. unfold after_run.
    pose proof (main_reaches env dry_run (start rows)) as HR. cbn [start sheet] in HR.
    apply (Reach_row _ (fun row => nth c row "" = nth c (nth r rows []) "") r) in HR;
      [exact (proj1 HR)| |reflexivity].
    intros tab c' v row Hok Hrow.
    rewrite nth_set_nth_other; [exact Hrow|].
    destruct (main_event_column env rows tab r c' v Hok); congruence.
Qed.

(** ** Runs that do nothing *)

Lemma main_after_read (env : Env) (dry_run : bool) (w : World) :
  client_ok env = true -> read_ok env = true ->
  main env dry_run w
  = match sheet w with
    | [] => ret tt
    | _ :: _ =>
        match scan_active 0 (skipn 1 (sheet w)) with
        | [] => start_new_batch env dry_run (sheet w)
        | _ :: _ => advance_active_batch env dry_run (sheet w)
                      (scan_active 0 (skipn 1 (sheet w)))
        end
    end w.
Proof.
  intros Hc Hr. unfold main, bind, GoogleSheetClient, read_all_rows.
  rewrite Hc, Hr. cbn [ret]. now destruct (sheet w).
Qed.

Lemma no_member_nil {A : Type} (l : list A) : (forall x, ~ In x l) -> l = [].
Proof.
  destruct l as [|a l]; [reflexivity|]. intros H. destruct (H a). now left.
Qed.

(** X3. Once the client is built and the tab is read: when no data row
    has status "Email Sent", "New" or empty (an empty tab and a tab with
    only its header included), the run makes no call, writes nothing and
    ends normally. *)
Theorem finished_tab_is_left_alone (env : Env) (dry_run : bool) (rows : Sheet) :
  client_ok env = true ->
  read_ok env = true ->
  (forall r, 1 <= r < List.length rows ->
             get_status (nth r rows []) <> "Email Sent"
             /\ is_new (nth r rows []) = false) ->
  main env dry_run (start rows) = (inr tt, start rows).
Proof.
  intros Hclient Hread Hdone.
  assert (Ha : scan_active 0 (skipn 1 rows) = []).
  { apply no_member_nil. intros x Hx. apply active_row_iff in Hx.
    destruct Hx as [Hb Hs]. now destruct (Hdone x Hb). }
  assert (Hn : scan_new 0 (skipn 1 rows) [] = []).
  { apply no_member_nil. intros x Hx. apply selected_is_new in Hx.
    destruct Hx as [Hb Hs]. destruct (Hdone x Hb). congruence. }
  rewrite main_after_read by assumption. cbn [start sheet].
  destruct rows as [|h data]; [reflexivity|].
  rewrite Ha. unfold start_new_batch. now rewrite Hn.
Qed.

Lemma finished_tab_is_left_alone_witness :
  main all_ok false
       (start [header; ["Di Poe"; "Di"; "di@x.com"; "555-0003"; ""; ""; ""; "c2"; "Done";
                        "2024-02-28T08:00:00"]])
  = (inr tt,
     start [header; ["Di Poe"; "Di"; "di@x.com"; "555-0003"; ""; ""; ""; "c2"; "Done";
                     "2024-02-28T08:00:00"]]).
Proof.
  apply finished_tab_is_left_alone; [reflexivity|reflexivity|].
  intros r Hr. simpl in Hr.
  assert (r = 1) as -> by lia. split; [discriminate|reflexivity].
Defined.

Lemma advance_row_held (env : Env) (dry_run : bool) (rows : Sheet) (x c : nat) (w : World) :
  held env rows x ->
  advance_row env dry_run rows x c w = (inr c, w).
Proof.
  intros Hheld. unfold advance_row.
  destruct (falsy (get_contact_id _)) eqn:Hc; [reflexivity|].
  destruct (falsy (get_date_sent _)) eqn:Hd; [reflexivity|].
  destruct Hheld as [H|[H|[H|[t [Hp Hlt]]]]]; try congruence.
  - now rewrite H.
  - rewrite Hp. unfold bind, lift. cbn [datetime_sub].
    apply Z.ltb_lt in Hlt. now rewrite Hlt.
Qed.

Lemma for_each_held (env : Env) (dry_run : bool) (rows : Sheet) (xs : list nat) :
  (forall x, In x xs -> held env rows x) ->
  forall c w, for_each xs (advance_row env dry_run rows) c w = (inr c, w).
Proof.
  induction xs as [|x rest IH]; intros Hheld c w; cbn [for_each]; [reflexivity|].
  unfold bind. rewrite advance_row_held by (apply Hheld; now left).
  apply IH. intros y Hy. apply Hheld. now right.
Qed.

(** X4. An active batch none of whose rows can be advanced blocks the
    pipeline: once the client is built and the tab is read, when every row
    at "Email Sent" lacks a contact id, lacks a date, has a date that does
    not parse or is still inside the delay, the run makes no call, writes
    nothing and ends normally, and no new batch is started however many new
    rows wait. *)
Theorem held_batch_blocks_the_run (env : Env) (dry_run : bool) (rows : Sheet) (a : nat) :
  client_ok env = true ->
  read_ok env = true ->
  1 <= a < List.length rows ->
  get_status (nth a rows []) = "Email Sent" ->
  (forall r, 1 <= r < List.length rows ->
             get_status (nth r rows []) = "Email Sent" -> held env rows r) ->
  main env dry_run (start rows) = (inr tt, start rows).
Proof.
  intros Hclient Hread Ha Hs Hheld.
  assert (Hin : In a (scan_active 0 (skipn 1 rows))) by now apply active_row_iff.
  assert (Hne : scan_active 0 (skipn 1 rows) <> [])
    by (intros E; now rewrite E in Hin).
  rewrite main_active_branch by assumption.
  unfold advance_active_batch, bind.
  rewrite for_each_held; [reflexivity|].
  intros x Hx. apply active_row_iff in Hx. now apply Hheld.
Qed.

Lemma held_batch_blocks_the_run_witness :
  main all_ok false
       (start [header;
               ["Al Roe"; "Al"; "al@x.com"; "555-0002"; ""; ""; ""; ""; "Email Sent";
                "2024-02-28T08:00:00"];
               jane])
  = (inr tt,
     start [header;
            ["Al Roe"; "Al"; "al@x.com"; "555-0002"; ""; ""; ""; ""; "Email Sent";
             "2024-02-28T08:00:00"];
            jane]).
Proof.
  apply (held_batch_blocks_the_run all_ok false _ 1).
  - reflexivity.
  - reflexivity.
  - simpl; lia.
  - reflexivity.
  - intros r Hr Hs. simpl in Hr.
    assert (r = 1 \/ r = 2) as [-> | ->] by lia.
    + left. reflexivity.
    + discriminate.
Defined.

(** ** No row gets two messages in one run *)

Lemma count_events_app (f : Event -> bool) (l1 l2 : list Event) :
  count_events f (l1 ++ l2) = count_events f l1 + count_events f l2.
Proof. unfold count_events. now rewrite filter_app, length_app. Qed.

Section Adding.

Variable f : Event -> bool.

Hypothesis f_update : forall tab r c v, f (UpdateCell tab r c v) = false.

Lemma adds_ret {A : Type} (a : A) : adds_at_most f 0 (ret a).
Proof. intros w; simpl; lia. Qed.

Lemma adds_weaken {A : Type} (k k' : nat) (m : M A) :
  k <= k' -> adds_at_most f k m -> adds_at_most f k' m.
Proof. intros Hk H w. specialize (H w). lia. Qed.

Lemma adds_bind {A B : Type} (k1 k2 : nat) (m : M A) (g : A -> M B) :
  adds_at_most f k1 m -> (forall a, adds_at_most f k2 (g a)) ->
  adds_at_most f (k1 + k2) (bind m g).
Proof.
  intros Hm Hg w. unfold bind. specialize (Hm w).
  destruct (m w) as [[e|a] w']; simpl in *; [lia|].
  specialize (Hg a w'). lia.
Qed.

Lemma adds_try {A : Type} (k1 k2 : nat) (m : M A) (h : Exn -> M A) :
  adds_at_most f k1 m -> (forall e, adds_at_most f k2 (h e)) ->
  adds_at_most f (k1 + k2) (try_except m h).
Proof.
  intros Hm Hh w. unfold try_except. specialize (Hm w).
  destruct (m w) as [[e|a] w']; simpl in *; [|lia].
  specialize (Hh e w'). lia.
Qed.

Lemma adds_update_status (env : Env) (tab : string) (r c : nat) (v : string)
      (dc : option nat) (dv : option string) :
  adds_at_most f 0 (update_status env tab r c v dc dv).
Proof.
  assert (Hcell : forall c v, adds_at_most f 0 (update_cell env tab r c v)).
  { intros c0 v0 w. unfold update_cell, bind, emit.
    destruct (write_ok env r c0 v0); simpl; rewrite count_events_app;
      unfold count_events at 2; simpl; rewrite f_update; simpl; lia. }
  unfold update_status. apply (adds_bind 0 0); [apply Hcell|]. intros _.
  destruct dc; [destruct dv|]; (apply Hcell || apply adds_ret).
Qed.

Lemma adds_send (env : Env) (r : nat) (cid ty body : string) (subj : option string) :
  adds_at_most f (if f (SendMessage r cid ty body subj) then 1 else 0)
               (send_ghl_message env r cid ty body subj).
Proof.
  intros w. unfold send_ghl_message, bind, emit.
  destruct (Str.lower ty =? "email")%string; [destruct (falsy subj)|];
    simpl; try destruct (http_ok env r); simpl; rewrite count_events_app;
    unfold count_events at 2; simpl;
    destruct (f (SendMessage r cid ty body subj)); simpl; lia.
Qed.

End Adding.

Lemma adds_advance_row (env : Env) (dry_run : bool) (rows : Sheet) (r x c : nat) :
  adds_at_most (message_for r) (if x =? r then 1 else 0)
               (advance_row env dry_run rows x c).
Proof.
  assert (Hz : forall k : nat,
             adds_at_most (message_for r) (if x =? r then 1 else 0) (ret k))
    by (intros k; apply (adds_weaken _ 0); [lia|apply adds_ret]).
  unfold advance_row.
  destruct (falsy (get_contact_id _)); [apply Hz|].
  destruct (falsy (get_date_sent _)); [apply Hz|].
  destruct (fromisoformat env _) as [[t|t o]|]; [| |apply Hz].
  - intros w. unfold bind at 1, lift. cbn [datetime_sub]. revert w.
    destruct (Z.ltb _ _); [apply Hz|].
    destruct dry_run; cbn [negb]; [apply Hz|].
    replace (if x =? r then 1 else 0) with ((if x =? r then 1 else 0) + 0) by lia.
    apply adds_try.
    + replace (if x =? r then 1 else 0) with ((if x =? r then 1 else 0) + 0) by lia.
      apply adds_bind; [apply (adds_send (message_for r) env x)|]. intros _.
      apply (adds_bind _ 0 0); [now apply adds_update_status|].
      intros _. apply adds_ret.
    + intros _. apply (adds_bind _ 0 0); [now apply adds_update_status|].
      intros _. apply adds_ret.
  - intros w. unfold bind, lift. cbn [datetime_sub snd]. lia.
Qed.

Lemma adds_email_row (env : Env) (dry_run : bool) (rows : Sheet) (r x c : nat) :
  adds_at_most (message_for r) (if x =? r then 1 else 0)
               (email_row env dry_run rows x c).
Proof.
  assert (Hz : forall k : nat,
             adds_at_most (message_for r) (if x =? r then 1 else 0) (ret k))
    by (intros k; apply (adds_weaken _ 0); [lia|apply adds_ret]).
  unfold email_row.
  destruct (falsy (get_contact_id _)); [apply Hz|].
  destruct dry_run; cbn [negb]; [apply Hz|].
  replace (if x =? r then 1 else 0) with ((if x =? r then 1 else 0) + 0) by lia.
  apply adds_try.
  - replace (if x =? r then 1 else 0) with ((if x =? r then 1 else 0) + 0) by lia.
    apply adds_bind; [apply (adds_send (message_for r) env x)|]. intros _.
    apply (adds_bind _ 0 0); [now apply adds_update_status|].
    intros _. apply adds_ret.
  - intros _. apply (adds_bind _ 0 0); [now apply adds_update_status|].
    intros _. apply adds_ret.
Qed.

Lemma adds_for_each (r : nat) (xs : list nat) (body : nat -> nat -> M nat) :
  (forall x c, adds_at_most (message_for r) (if x =? r then 1 else 0) (body x c)) ->
  forall c, adds_at_most (message_for r)
                         (List.length (filter (fun x => x =? r) xs))
                         (for_each xs body c).
Proof.
  intros Hbody. induction xs as [|x rest IH]; intros c; cbn [for_each filter].
  - apply adds_ret.
  - pose proof (Hbody x c) as Hx.
    destruct (x =? r); cbn [List.length].
    + apply (adds_bind _ 1 _); [exact Hx|]. intros c'. apply IH.
    + apply (adds_bind _ 0 _); [exact Hx|]. intros c'. apply IH.
Qed.

Lemma sorted_once (xs : list nat) (r : nat) :
  StronglySorted lt xs -> List.length (filter (fun x => x =? r) xs) <= 1.
Proof.
  induction 1 as [|x xs Hs IH Hx]; cbn [filter List.length]; [lia|].
  destruct (Nat.eqb_spec x r) as [->|_]; [|exact IH].
  cbn [List.length].
  assert (Hnone : filter (fun x => x =? r) xs = []).
  { apply no_member_nil. intros y Hy. apply filter_In in Hy.
    destruct Hy as [Hy He]. apply Nat.eqb_eq in He. subst y.
    rewrite Forall_forall in Hx. apply Hx in Hy. lia. }
  rewrite Hnone. simpl. lia.
Qed.

Lemma sorted_firstn (n : nat) (xs : list nat) :
  StronglySorted lt xs -> StronglySorted lt (firstn n xs).
Proof.
  intros Hs; revert n; induction Hs as [|x xs Hs IH Hx]; intros [|n]; cbn [firstn];
    try constructor.
  - apply IH.
  - rewrite Forall_forall in *. intros y Hy. apply Hx. now apply In_firstn in Hy.
Qed.

Lemma scan_new_sorted (rows : Sheet) : StronglySorted lt (scan_new 0 (skipn 1 rows) []).
Proof.
  rewrite new_batch_firstn. apply sorted_firstn, eligible_indices_sorted.
Qed.

(** X5. In one run no row gets more than one message, whatever the
    services answer: each of the two index lists holds a row at most once,
    and the body of each loop calls [send_ghl_message] at most once. *)
Theorem at_most_one_message_per_row (env : Env) (dry_run : bool) (rows : Sheet) (r : nat) :
  count_events (message_for r) (log (after_run env dry_run rows)) <= 1.
Proof.
  assert (Hnote : forall (n : nat) (msg : string) (w : World),
             count_events (message_for r)
               (log (snd ((if 0 <? n
                           then if negb dry_run then send_notification msg else ret tt
                           else ret tt) w)))
             = count_events (message_for r) (log w)).
  { intros n msg w. destruct (0 <? n); [|reflexivity].
    destruct dry_run; cbn [negb]; [reflexivity|].
    unfold send_notification, emit; cbn [snd log].
    rewrite count_events_app. unfold count_events at 2. simpl. lia. }
  unfold after_run.
  destruct (client_ok env) eqn:Hclient;
    [|rewrite main_without_client by assumption; unfold count_events; simpl; lia].
  destruct (read_ok env) eqn:Hread;
    [|rewrite main_without_rows by assumption; unfold count_events; simpl; lia].
  rewrite main_after_read by assumption. cbn [start sheet].
  destruct rows as [|h data]; [unfold count_events; simpl; lia|].
  destruct (scan_active 0 (skipn 1 (h :: data))) as [|i idxs] eqn:Ha.
  - unfold start_new_batch.
    destruct (scan_new 0 (skipn 1 (h :: data)) []) as [|j sel] eqn:Hn;
      [unfold count_events; simpl; lia|].
    unfold bind.
    pose proof (adds_for_each r (j :: sel) (email_row env dry_run (h :: data))
                  (adds_email_row env dry_run (h :: data) r) 0 (start (h :: data))) as H.
    pose proof (sorted_once (j :: sel) r) as Hone.
    rewrite <- Hn in Hone. specialize (Hone (scan_new_sorted (h :: data))).
    rewrite Hn in Hone.
    destruct (for_each (j :: sel) _ 0 _) as [[e|n] w']; cbn [snd fst] in *.
    + unfold count_events in *; simpl in *; lia.
    + rewrite Hnote. unfold count_events in *; simpl in *; lia.
  - unfold advance_active_batch, bind.
    pose proof (adds_for_each r (i :: idxs) (advance_row env dry_run (h :: data))
                  (adds_advance_row env dry_run (h :: data) r) 0 (start (h :: data))) as H.
    pose proof (sorted_once (i :: idxs) r) as Hone.
    rewrite <- Ha in Hone.
    specialize (Hone (proj1 (scan_active_sorted (skipn 1 (h :: data)) 0))).
    rewrite Ha in Hone.
    destruct (for_each (i :: idxs) _ 0 _) as [[e|n] w']; cbn [snd fst] in *.
    + unfold count_events in *; simpl in *; lia.
    + rewrite Hnote. unfold count_events in *; simpl in *; lia.
Qed.

(** ** Outcome of the SMS step *)

Lemma active_run_keeps_dates (env : Env) (dry_run : bool) (rows : Sheet) (r : nat) :
  scan_active 0 (skipn 1 rows) <> [] ->
  get_date_sent (nth r (sheet (after_run env dry_run rows)) [])
  = get_date_sent (nth r rows []).
Proof.
  intros Hne. unfold after_run.
  pose proof (main_reaches env dry_run (start rows)) as HR. cbn [start sheet] in HR.
  apply (Reach_row _ (fun row => get_date_sent row = get_date_sent (nth r rows [])) r)
    in HR; [exact (proj1 HR)| |reflexivity].
  intros tab c v row Hok Hrow. unfold main_event in Hok.
  destruct (scan_active 0 (skipn 1 rows)); [now destruct Hne|].
  cbn [sms_event] in Hok. destruct Hok as [_ [_ [_ [-> _]]]].
  now rewrite get_date_sent_set_status.
Qed.

(** X6. In a real run in which the client is built, the tab is read and
    the requests to write succeed, and whose active batch holds no date
    with UTC offset, a row at "Email Sent" with a
    contact id and a date at least 24 hours old ends at "Done" when its SMS
    is accepted and at "SMS Failed" when the send raises; its date cell
    reads as before. *)
Theorem due_row_ends_done_or_failed (env : Env) (rows : Sheet) (r : nat) (t : Z) :
  client_ok env = true ->
  read_ok env = true ->
  (forall i c v, write_ok env i c v = true) ->
  (forall x, In x (scan_active 0 (skipn 1 rows)) -> no_offset env rows x) ->
  1 <= r < List.length rows ->
  get_status (nth r rows []) = "Email Sent" ->
  falsy (get_contact_id (nth r rows [])) = false ->
  falsy (get_date_sent (nth r rows [])) = false ->
  fromisoformat env (str_of (get_date_sent (nth r rows []))) = Some (Naive t) ->
  (t <= now env r - timedelta_hours DELAY_HOURS)%Z ->
  get_status (nth r (sheet (after_run env false rows)) [])
  = (if http_ok env r then "Done" else "SMS Failed")
  /\ get_date_sent (nth r (sheet (after_run env false rows)) [])
     = get_date_sent (nth r rows []).
Proof.
  intros Hclient Hread Hw Hno Hr Hs Hc Hd Hp Hdue. split.
  - now apply (due_row_is_advanced env rows r t).
  - apply active_run_keeps_dates. intros E.
    assert (Hin : In r (scan_active 0 (skipn 1 rows))) by now apply active_row_iff.
    now rewrite E in Hin.
Qed.

Lemma due_row_ends_done_or_failed_witness :
  get_status (nth 2 (sheet (after_run all_ok false [header; waiting_row; due_row])) [])
  = "Done"
  /\ get_date_sent (nth 2 (sheet (after_run all_ok false [header; waiting_row; due_row])) [])
     = get_date_sent due_row.
Proof.
  apply (due_row_ends_done_or_failed all_ok [header; waiting_row; due_row] 2
           (t0 - timedelta_hours 49)).
  - reflexivity.
  - reflexivity.
  - reflexivity.
  - intros x Hx t o. vm_compute in Hx.
    destruct Hx as [<-|[<-|[]]]; vm_compute; discriminate.
  - simpl; lia.
  - reflexivity.
  - reflexivity.
  - reflexivity.
  - vm_compute; reflexivity.
  - vm_compute; discriminate.
Defined.

(** ** Outcome of the e-mail step *)

Section Emailing.

Variable env : Env.
Variable rows : Sheet.

Hypothesis writes_succeed : forall r c v, write_ok env r c v = true.

Lemma email_row_step (x c : nat) (w : World) :
  exists w',
    email_row env false rows x c w = (inr (c + (if accepted env rows x then 1 else 0)), w')
    /\ nth x (sheet w') [] = emailed_row env rows x (nth x (sheet w) [])
    /\ filter is_notify (log w') = filter is_notify (log w).
Proof.
  unfold email_row, accepted, emailed_row, contactless.
  destruct (falsy (get_contact_id (nth x rows []))).
  - exists w. cbn [negb andb]. now rewrite Nat.add_0_r.
  - cbn [negb andb]. unfold try_except, bind at 1. rewrite send_email.
    destruct (http_ok env x).
    + unfold update_status, bind. rewrite !update_cell_ok by apply writes_succeed.
      eexists. split; [reflexivity|]. cbn [sheet log]. split.
      * now rewrite !nth_set_cell, Nat.eqb_refl.
      * rewrite !filter_app. cbn [filter is_notify]. now rewrite !app_nil_r.
    + unfold bind. rewrite update_status_plain by apply writes_succeed.
      eexists. split; [now rewrite Nat.add_0_r|]. cbn [sheet log]. split.
      * now rewrite nth_set_cell, Nat.eqb_refl.
      * rewrite !filter_app. cbn [filter is_notify]. now rewrite !app_nil_r.
Qed.

Lemma email_loop_count (xs : list nat) :
  forall c w, exists w',
    for_each xs (email_row env false rows) c w
    = (inr (c + List.length (filter (accepted env rows) xs)), w')
    /\ filter is_notify (log w') = filter is_notify (log w).
Proof.
  induction xs as [|x rest IH]; intros c w; cbn [for_each filter].
  - exists w. cbn [List.length]. now rewrite Nat.add_0_r.
  - destruct (email_row_step x c w) as [w1 [E [_ Hn]]].
    unfold bind. rewrite E.
    destruct (IH (c + (if accepted env rows x then 1 else 0)) w1) as [w2 [E2 Hn2]].
    exists w2. rewrite E2. split; [|congruence].
    destruct (accepted env rows x); cbn [List.length]; f_equal; f_equal; lia.
Qed.

Lemma email_loop_row (r : nat) (xs : list nat) :
  forall c w,
    StronglySorted lt xs -> In r xs ->
    nth r (sheet (snd (for_each xs (email_row env false rows) c w))) []
    = emailed_row env rows r (nth r (sheet w) []).
Proof.
  induction xs as [|x rest IH]; intros c w Hs Hin; [contradiction|].
  apply StronglySorted_inv in Hs. destruct Hs as [Hs Hx].
  cbn [for_each]. unfold bind.
  destruct (email_row_step x c w) as [w1 [E [Hrow _]]]. rewrite E.
  destruct (Nat.eq_dec x r) as [->|Hne].
  - pose proof (reaches_for_each (email_event env rows (fun i => In i rest)) rest
                  (email_row env false rows)) as HR.
    assert (Hbody : forall y k, In y rest ->
              reaches (email_event env rows (fun i => In i rest))
                      (email_row env false rows y k)).
    { intros y k Hy w0. eapply Reach_mono; [|apply email_row_reaches].
      intros ev. apply email_event_mono. now intros i <-. }
    specialize (HR Hbody (c + (if accepted env rows r then 1 else 0)) w1).
    apply Reach_untouched with (r := r) in HR.
    + destruct HR as [Hsame _]. now rewrite Hsame.
    + intros tab k v [Hmem _]. rewrite Forall_forall in Hx.
      apply Hx in Hmem. lia.
  - destruct Hin as [Heq|Hin]; [congruence|].
    rewrite IH by assumption. f_equal.
    pose proof (email_row_reaches env rows false x c w) as HR.
    rewrite E in HR. cbn [snd] in HR.
    apply Reach_untouched with (r := r) in HR; [exact (proj1 HR)|].
    intros tab k v [Hmem _]. congruence.
Qed.

End Emailing.

Lemma main_new_branch (env : Env) (dry_run : bool) (rows : Sheet) :
  client_ok env = true ->
  read_ok env = true ->
  scan_active 0 (skipn 1 rows) = [] ->
  main env dry_run (start rows) = start_new_batch env dry_run rows (start rows).
Proof.
  intros Hclient Hread Hnone. rewrite main_after_read by assumption.
  cbn [start sheet].
  destruct rows as [|h data]; [reflexivity|]. now rewrite Hnone.
Qed.

Lemma start_new_batch_run (env : Env) (rows : Sheet) (w : World) :
  (forall r c v, write_ok env r c v = true) ->
  exists w1,
    for_each (scan_new 0 (skipn 1 rows) []) (email_row env false rows) 0 w
    = (inr (List.length (filter (accepted env rows) (scan_new 0 (skipn 1 rows) []))), w1)
    /\ filter is_notify (log w1) = filter is_notify (log w)
    /\ start_new_batch env false rows w
       = (inr tt,
          {| sheet := sheet w1; history := history w1;
             log := log w1 ++
                    summary_calls email_summary
                      (List.length (filter (accepted env rows)
                                           (scan_new 0 (skipn 1 rows) []))) |}).
Proof.
  intros Hw.
  destruct (email_loop_count env rows Hw (scan_new 0 (skipn 1 rows) []) 0 w)
    as [w1 [E Hn]]. cbn [Nat.add] in E.
  exists w1. split; [exact E|]. split; [exact Hn|].
  unfold start_new_batch.
  destruct (scan_new 0 (skipn 1 rows) []) as [|j sel] eqn:Hsel.
  - cbn [for_each] in E. injection E as <-. cbn [filter List.length].
    unfold summary_calls. cbn [Nat.ltb Nat.leb]. rewrite app_nil_r. now destruct w.
  - unfold bind. rewrite E. unfold summary_calls, email_summary.
    destruct (0 <? _); cbn [negb].
    + reflexivity.
    + rewrite app_nil_r. now destruct w1.
Qed.

(** X7. In a real run that builds the client, reads the tab and starts a
    new batch, with the requests to write succeeding, the run ends
    normally; a selected row with a
    contact id ends at "Email Sent" with the current time as its date when
    the e-mail is accepted, and at "Email Failed" with its date cell as it
    was when the send raises; every other row keeps its cells. *)
Theorem new_batch_run_outcome (env : Env) (rows : Sheet) (r : nat) :
  client_ok env = true ->
  read_ok env = true ->
  (forall i c v, write_ok env i c v = true) ->
  scan_active 0 (skipn 1 rows) = [] ->
  fst (main env false (start rows)) = inr tt
  /\ (In r (scan_new 0 (skipn 1 rows) []) ->
      falsy (get_contact_id (nth r rows [])) = false ->
      if http_ok env r
      then get_status (nth r (sheet (after_run env false rows)) []) = "Email Sent"
           /\ get_date_sent (nth r (sheet (after_run env false rows)) [])
              = Some (Str.strip (isoformat env (now env r)))
      else get_status (nth r (sheet (after_run env false rows)) []) = "Email Failed"
           /\ get_date_sent (nth r (sheet (after_run env false rows)) [])
              = get_date_sent (nth r rows []))
  /\ (~ In r (scan_new 0 (skipn 1 rows) [])
      \/ falsy (get_contact_id (nth r rows [])) = true ->
      nth r (sheet (after_run env false rows)) [] = nth r rows []).
Proof.
  intros Hclient Hread Hw Hnone.
  destruct (start_new_batch_run env rows (start rows) Hw) as [w1 [E [_ Hrun]]].
  assert (Hsheet : sheet (after_run env false rows) = sheet w1).
  { unfold after_run. now rewrite main_new_branch, Hrun by assumption. }
  assert (Hrow : In r (scan_new 0 (skipn 1 rows) []) ->
                 nth r (sheet w1) [] = emailed_row env rows r (nth r rows [])).
  { intros Hin.
    pose proof (email_loop_row env rows Hw r _ 0 (start rows)
                  (scan_new_sorted rows) Hin) as H.
    now rewrite E in H. }
  split; [now rewrite main_new_branch, Hrun by assumption|]. split.
  - intros Hin Hc. rewrite Hsheet, (Hrow Hin).
    unfold emailed_row, contactless. rewrite Hc.
    destruct (http_ok env r).
    + split; [now rewrite get_status_set_date, get_status_set_status|].
      apply get_date_sent_set_date.
    + split; [now rewrite get_status_set_status|apply get_date_sent_set_status].
  - intros [Hout|Hc].
    + apply untouched_intro with (env := env) (dry_run := false) (rows := rows) (r := r).
      intros ev Hev Hab.
      now destruct (main_event_new env rows ev r Hnone Hev Hab).
    + destruct (in_dec Nat.eq_dec r (scan_new 0 (skipn 1 rows) [])) as [Hin|Hout].
      * rewrite Hsheet, (Hrow Hin). unfold emailed_row, contactless. now rewrite Hc.
      * apply untouched_intro with (env := env) (dry_run := false) (rows := rows) (r := r).
        intros ev Hev Hab.
        now destruct (main_event_new env rows ev r Hnone Hev Hab).
Qed.

Lemma new_batch_run_outcome_witness :
  get_status (nth 1 (sheet (after_run all_ok false [header; jane])) []) = "Email Sent"
  /\ get_date_sent (nth 1 (sheet (after_run all_ok false [header; jane])) [])
     = Some (Str.strip (isoformat all_ok (now all_ok 1))).
Proof.
  pose proof (new_batch_run_outcome all_ok [header; jane] 1
                eq_refl eq_refl (fun _ _ _ => eq_refl) eq_refl) as [_ [H _]].
  apply H.
  - vm_compute. now left.
  - reflexivity.
Defined.

(** X8. In a real run that builds the client, reads the tab and starts a
    new batch, with the requests to write succeeding, the webhook is called once, at the end, when at
    least one e-mail was accepted, with the number of accepted e-mails in
    its text; rows without contact id and rows whose send raised are not
    counted, and with no accepted e-mail the webhook is not called. *)
Theorem new_batch_summary (env : Env) (rows : Sheet) :
  client_ok env = true ->
  read_ok env = true ->
  (forall i c v, write_ok env i c v = true) ->
  scan_active 0 (skipn 1 rows) = [] ->
  filter is_notify (log (after_run env false rows))
  = summary_calls email_summary
      (List.length (filter (accepted env rows) (scan_new 0 (skipn 1 rows) []))).
Proof.
  intros Hclient Hread Hw Hnone.
  destruct (start_new_batch_run env rows (start rows) Hw) as [w1 [_ [Hn Hrun]]].
  unfold after_run. rewrite main_new_branch, Hrun by assumption. cbn [snd log].
  rewrite filter_app, Hn. cbn [start log filter app].
  unfold summary_calls. now destruct (0 <? _).
Qed.

Lemma new_batch_summary_witness :
  filter is_notify (log (after_run all_ok false crowded))
  = [Notify "Started new batch. Sent Email to 29 contacts."].
Proof.
  rewrite (new_batch_summary all_ok crowded eq_refl eq_refl
             (fun _ _ _ => eq_refl) eq_refl).
  vm_compute. reflexivity.
Defined.

(** ** Summary of the SMS step *)

Section Advancing.

Variable env : Env.
Variable rows : Sheet.

Hypothesis writes_succeed : forall r c v, write_ok env r c v = true.

Lemma advance_row_step (x c : nat) (w : World) :
  no_offset env rows x ->
  exists w',
    advance_row env false rows x c w
    = (inr (c + (if ready env rows x && http_ok env x then 1 else 0)), w')
    /\ filter is_notify (log w') = filter is_notify (log w).
Proof.
  intros Hno. unfold advance_row, ready.
  destruct (falsy (get_contact_id _));
    [exists w; cbn [negb andb]; now rewrite Nat.add_0_r|].
  destruct (falsy (get_date_sent _));
    [exists w; cbn [negb andb]; now rewrite Nat.add_0_r|].
  destruct (fromisoformat env _) as [[t|t o]|] eqn:Hp;
    [|now destruct (Hno t o)|exists w; cbn [negb andb]; now rewrite Nat.add_0_r].
  unfold bind at 1, lift. cbn [datetime_sub negb andb].
  destruct (Z.ltb _ _); cbn [negb];
    [exists w; now rewrite Nat.add_0_r|].
  unfold try_except, bind at 1. rewrite send_sms.
  destruct (http_ok env x); unfold bind;
    rewrite update_status_plain by apply writes_succeed;
    eexists; (split; [try reflexivity; now rewrite Nat.add_0_r|]);
    cbn [log]; rewrite !filter_app; cbn [filter is_notify]; now rewrite !app_nil_r.
Qed.

Lemma advance_loop_count (xs : list nat) :
  Forall (no_offset env rows) xs ->
  forall c w, exists w',
    for_each xs (advance_row env false rows) c w
    = (inr (c + List.length
                  (filter (fun x => ready env rows x && http_ok env x) xs)), w')
    /\ filter is_notify (log w') = filter is_notify (log w).
Proof.
  induction 1 as [|x rest Hx Hrest IH]; intros c w; cbn [for_each filter].
  - exists w. cbn [List.length]. now rewrite Nat.add_0_r.
  - destruct (advance_row_step x c w Hx) as [w1 [E Hn]].
    unfold bind. rewrite E.
    destruct (IH (c + (if ready env rows x && http_ok env x then 1 else 0)) w1)
      as [w2 [E2 Hn2]].
    exists w2. rewrite E2. split; [|congruence].
    destruct (ready env rows x && http_ok env x); cbn [List.length];
      f_equal; f_equal; lia.
Qed.

End Advancing.

(** X9. In a real run that builds the client, reads the tab and advances
    an active batch, with the requests to write succeeding and no date with
    UTC offset in the batch, the
    run ends normally and the webhook is called once, at the end, when at
    least one SMS was accepted, with the number of accepted SMS in its
    text: rows that were skipped and rows marked "SMS Failed" are not
    counted. *)
Theorem active_batch_summary (env : Env) (rows : Sheet) (a : nat) :
  client_ok env = true ->
  read_ok env = true ->
  (forall i c v, write_ok env i c v = true) ->
  (forall x, In x (scan_active 0 (skipn 1 rows)) -> no_offset env rows x) ->
  1 <= a < List.length rows ->
  get_status (nth a rows []) = "Email Sent" ->
  fst (main env false (start rows)) = inr tt
  /\ filter is_notify (log (after_run env false rows))
     = summary_calls sms_summary
         (List.length (filter (fun x => ready env rows x && http_ok env x)
                              (scan_active 0 (skipn 1 rows)))).
Proof.
  intros Hclient Hread Hw Hno Ha Hs.
  assert (Hin : In a (scan_active 0 (skipn 1 rows))) by now apply active_row_iff.
  assert (Hne : scan_active 0 (skipn 1 rows) <> [])
    by (intros E; now rewrite E in Hin).
  destruct (advance_loop_count env rows Hw (scan_active 0 (skipn 1 rows))
              (proj2 (Forall_forall _ _) Hno) 0 (start rows)) as [w1 [E Hn]].
  cbn [Nat.add] in E.
  unfold after_run. rewrite main_active_branch by assumption.
  unfold advance_active_batch, bind. rewrite E.
  unfold summary_calls, sms_summary.
  destruct (0 <? _); cbn [negb].
  - unfold send_notification, emit. cbn [fst snd log].
    split; [reflexivity|]. rewrite filter_app, Hn. reflexivity.
  - unfold ret. cbn [fst snd]. split; [reflexivity|]. now rewrite Hn.
Qed.

Lemma active_batch_summary_witness :
  filter is_notify (log (after_run all_ok false [header; waiting_row; due_row]))
  = [Notify "Completed SMS batch for 1 contacts."].
Proof.
  assert (H : filter is_notify (log (after_run all_ok false [header; waiting_row; due_row]))
              = summary_calls sms_summary
                  (List.length (filter (fun x => ready all_ok [header; waiting_row; due_row] x
                                                 && http_ok all_ok x)
                                       (scan_active 0 (skipn 1 [header; waiting_row; due_row]))))).
  { apply (active_batch_summary all_ok [header; waiting_row; due_row] 1).
    - reflexivity.
    - reflexivity.
    - reflexivity.
    - intros x Hx t o. vm_compute in Hx.
      destruct Hx as [<-|[<-|[]]]; vm_compute; discriminate.
    - simpl; lia.
    - reflexivity. }
  rewrite H. vm_compute. reflexivity.
Defined.

(** ** An e-mail, then its SMS *)

Lemma falsy_contact_set_nth (row : Row) (c : nat) (v : string) :
  c <> CONTACT_ID_COL_IDX ->
  falsy (get_contact_id (set_nth "" c v row)) = falsy (get_contact_id row).
Proof.
  intros Hc. unfold get_contact_id. rewrite set_nth_length.
  rewrite nth_set_nth_other by congruence.
  destruct (Nat.ltb_spec CONTACT_ID_COL_IDX (List.length row)) as [Hl|Hl].
  - destruct (Nat.ltb_spec CONTACT_ID_COL_IDX (Nat.max (S c) (List.length row)));
      [reflexivity|lia].
  - rewrite nth_overflow by assumption.
    now destruct (CONTACT_ID_COL_IDX <? Nat.max (S c) (List.length row)).
Qed.

Lemma new_batch_row_content (env : Env) (rows : Sheet) (r : nat) :
  client_ok env = true ->
  read_ok env = true ->
  (forall i c v, write_ok env i c v = true) ->
  scan_active 0 (skipn 1 rows) = [] ->
  nth r (sheet (after_run env false rows)) [] =
  if in_dec Nat.eq_dec r (scan_new 0 (skipn 1 rows) [])
  then emailed_row env rows r (nth r rows [])
  else nth r rows [].
Proof.
  intros Hclient Hread Hw Hnone.
  destruct (start_new_batch_run env rows (start rows) Hw) as [w1 [E [_ Hrun]]].
  destruct (in_dec Nat.eq_dec r (scan_new 0 (skipn 1 rows) [])) as [Hin|Hout].
  - unfold after_run. rewrite main_new_branch, Hrun by assumption. cbn [snd sheet].
    pose proof (email_loop_row env rows Hw r _ 0 (start rows)
                  (scan_new_sorted rows) Hin) as H.
    now rewrite E in H.
  - apply untouched_intro with (env := env) (dry_run := false) (rows := rows) (r := r).
    intros ev Hev Hab.
    now destruct (main_event_new env rows ev r Hnone Hev Hab).
Qed.

(** X10. Two runs in a row.  A first real run starts a new batch and the
    e-mail of a selected row is accepted; a second real run finds the clock
    at least 24 hours later.  When both runs build the client and read the
    tab, the requests to write succeed
    and [fromisoformat] reads the text of [isoformat] back as the same
    naive time, the second run ends with that row at "Done" when its SMS is
    accepted and at "SMS Failed" when the send raises. *)
Theorem email_then_sms_after_the_delay (env1 env2 : Env) (rows : Sheet) (r : nat) :
  client_ok env1 = true ->
  read_ok env1 = true ->
  client_ok env2 = true ->
  read_ok env2 = true ->
  (forall i c v, write_ok env1 i c v = true) ->
  (forall i c v, write_ok env2 i c v = true) ->
  (forall x, Str.strip (isoformat env1 (now env1 x)) <> "") ->
  (forall x, fromisoformat env2 (Str.strip (isoformat env1 (now env1 x)))
             = Some (Naive (now env1 x))) ->
  scan_active 0 (skipn 1 rows) = [] ->
  In r (scan_new 0 (skipn 1 rows) []) ->
  falsy (get_contact_id (nth r rows [])) = false ->
  http_ok env1 r = true ->
  (now env1 r + timedelta_hours DELAY_HOURS <= now env2 r)%Z ->
  get_status (nth r (sheet (after_run env2 false (sheet (after_run env1 false rows)))) [])
  = if http_ok env2 r then "Done" else "SMS Failed".
Proof.
  intros Hclient1 Hread1 Hclient2 Hread2 Hw1 Hw2 Hstamp Hparse Hnone Hsel Hc Hok Hlate.
  pose proof (fun x => new_batch_row_content env1 rows x Hclient1 Hread1) as Hrows.
  assert (Hr : nth r (sheet (after_run env1 false rows)) []
               = set_nth "" DATE_SENT_COL_IDX (isoformat env1 (now env1 r))
                         (set_nth "" STATUS_COL_IDX "Email Sent" (nth r rows []))).
  { rewrite Hrows by assumption.
    destruct (in_dec Nat.eq_dec r (scan_new 0 (skipn 1 rows) [])); [|contradiction].
    unfold emailed_row, contactless. now rewrite Hc, Hok. }
  apply (due_row_is_advanced env2 _ r (now env1 r)).
  - exact Hclient2.
  - exact Hread2.
  - exact Hw2.
  - intros x Hx t o. apply active_row_iff in Hx. destruct Hx as [Hb Hs].
    rewrite run_length in Hb. rewrite Hrows in Hs |- * by assumption.
    assert (Hold : get_status (nth x rows []) <> "Email Sent").
    { intros Hact. assert (Hin : In x (scan_active 0 (skipn 1 rows)))
        by now apply active_row_iff.
      now rewrite Hnone in Hin. }
    destruct (in_dec Nat.eq_dec x (scan_new 0 (skipn 1 rows) [])); [|contradiction].
    unfold emailed_row in *. destruct (contactless rows x); [contradiction|].
    destruct (http_ok env1 x).
    + rewrite get_date_sent_set_date. cbn [str_of]. rewrite Hparse. discriminate.
    + rewrite get_status_set_status in Hs. discriminate.
  - rewrite run_length. now apply selected_is_new.
  - now rewrite Hr, get_status_set_date, get_status_set_status.
  - rewrite Hr, !falsy_contact_set_nth by discriminate. exact Hc.
  - rewrite Hr, get_date_sent_set_date. cbn [falsy].
    apply String.eqb_neq, Hstamp.
  - rewrite Hr, get_date_sent_set_date. cbn [str_of]. apply Hparse.
  - lia.
Qed.

Lemma email_then_sms_after_the_delay_witness :
  get_status
    (nth 1 (sheet (after_run (sample_env (fun _ => true) (fun _ _ _ => true)
                                         (t0 + timedelta_hours 25))
                             false
                             (sheet (after_run all_ok false [header; jane])))) [])
  = "Done".
Proof.
  apply (email_then_sms_after_the_delay all_ok
           (sample_env (fun _ => true) (fun _ _ _ => true) (t0 + timedelta_hours 25))
           [header; jane] 1).
  - reflexivity.
  - reflexivity.
  - reflexivity.
  - reflexivity.
  - reflexivity.
  - reflexivity.
  - intros x. vm_compute. discriminate.
  - intros x. vm_compute. reflexivity.
  - reflexivity.
  - vm_compute. now left.
  - reflexivity.
  - reflexivity.
  - vm_compute. discriminate.
Defined.

(** ** The range that [update_cell] names *)

Lemma append_cancel_l (p a b : string) : (p ++ a = p ++ b)%string -> a = b.
Proof.
  induction p as [|ch p IH]; simpl; intros H; [exact H|].
  injection H as H. now apply IH.
Qed.

Lemma of_nat_inj (n m : nat) : Str.of_nat n = Str.of_nat m -> n = m.
Proof.
  unfold Str.of_nat. intros H. apply Unsigned.to_uint_inj.
  assert (E : Some (Nat.to_uint n) = Some (Nat.to_uint m))
    by (rewrite <- !NilEmpty.usu; now rewrite H).
  now injection E.
Qed.

(** X11. The range text of [update_cell] names one cell: for the columns
    0 to 25 the column part is the capital letter of that column and two
    ranges of one tab are the same text only for the same row and the same
    column; from column 26 on the character is no capital letter any more,
    so the helper reaches columns A to Z only. *)
Theorem cell_range_names_one_cell (tab : string) (r r' c c' : nat) :
  (c < 191 ->
   (exists ch, col_letter c = String ch EmptyString
               /\ (65 <= nat_of_ascii ch <= 90 <-> c <= 25)))
  /\ (c <= 25 -> c' <= 25 ->
      cell_range tab r c = cell_range tab r' c' -> r = r' /\ c = c').
Proof.
  split.
  - intros Hc. exists (ascii_of_nat (65 + c)). split; [reflexivity|].
    rewrite nat_ascii_embedding by lia. lia.
  - intros Hc Hc' H. unfold cell_range, col_letter in H.
    apply append_cancel_l in H. cbn [append] in H.
    injection H as Hch Hrow.
    assert (Hcc : 65 + c = 65 + c').
    { rewrite <- (nat_ascii_embedding (65 + c)), <- (nat_ascii_embedding (65 + c')) by lia.
      now f_equal. }
    apply of_nat_inj in Hrow. lia.
Qed.

Lemma cell_range_names_one_cell_witness :
  cell_range TAB_NAME 4 STATUS_COL_IDX = "Sheet1!I5"
  /\ (cell_range TAB_NAME 4 STATUS_COL_IDX = cell_range TAB_NAME 4 STATUS_COL_IDX ->
      4 = 4 /\ STATUS_COL_IDX = STATUS_COL_IDX).
Proof.
  split; [reflexivity|].
  apply (proj2 (cell_range_names_one_cell TAB_NAME 4 4 STATUS_COL_IDX STATUS_COL_IDX)).
  - unfold STATUS_COL_IDX; lia.
  - unfold STATUS_COL_IDX; lia.
Defined.

(** ** Errors of the calls *)

(** X12. [send_ghl_message] asks for a subject whenever the message type
    reads "email" in any mix of upper and lower case: without subject, or
    with an empty one, the call raises [ValueError] whatever the endpoint
    would answer, and the tab is as before. *)
Theorem email_without_subject_is_refused
        (env : Env) (r : nat) (cid ty body : string) (subj : option string) (w : World) :
  Str.lower ty = "email" ->
  falsy subj = true ->
  fst (send_ghl_message env r cid ty body subj w) = inl ValueError
  /\ sheet (snd (send_ghl_message env r cid ty body subj w)) = sheet w
  /\ history (snd (send_ghl_message env r cid ty body subj w)) = history w.
Proof.
  intros Hty Hsubj. unfold send_ghl_message, bind, emit. cbn [fst snd].
  rewrite Hty, Hsubj. now cbn.
Qed.

Lemma email_without_subject_is_refused_witness :
  fst (send_ghl_message all_ok 1 "c123" "EMail" "<p>Hi</p>" (Some "") (start [header; jane]))
  = inl ValueError.
Proof.
  apply (email_without_subject_is_refused all_ok 1 "c123" "EMail" "<p>Hi</p>" (Some "")
           (start [header; jane])); reflexivity.
Defined.

(** X13. The handler of line 160 also catches a failure of the
    spreadsheet.  When the e-mail of a row is accepted and the status cell
    is written but the request for the date cell fails, the row is marked
    "Email Failed" and is not counted, although its e-mail went out. *)
Theorem accepted_email_marked_failed
        (env : Env) (rows : Sheet) (r count : nat) (w : World) :
  falsy (get_contact_id (nth r rows [])) = false ->
  http_ok env r = true ->
  write_ok env r STATUS_COL_IDX "Email Sent" = true ->
  write_ok env r DATE_SENT_COL_IDX (isoformat env (now env r)) = false ->
  write_ok env r STATUS_COL_IDX "Email Failed" = true ->
  fst (email_row env false rows r count w) = inr count
  /\ get_status (nth r (sheet (snd (email_row env false rows r count w))) [])
     = "Email Failed"
  /\ In (SendMessage r (str_of (get_contact_id (nth r rows []))) "Email"
                     (Str.format EMAIL_BODY_TEMPLATE (get_first_name (nth r rows [])))
                     (Some EMAIL_SUBJECT))
        (log (snd (email_row env false rows r count w))).
Proof.
  intros Hc Hh Hw1 Hw2 Hw3.
  remember (email_row env false rows r count w) as res eqn:E.
  unfold email_row in E. rewrite Hc in E. cbn [negb] in E.
  unfold try_except, bind at 1 in E. rewrite send_email, Hh in E.
  unfold update_status, bind in E. rewrite update_cell_ok in E by exact Hw1.
  rewrite update_cell_fails in E by exact Hw2.
  rewrite update_cell_ok in E by exact Hw3. subst res. unfold ret. cbn [fst snd sheet log history].
  split; [reflexivity|]. split.
  - now rewrite nth_set_cell, Nat.eqb_refl, get_status_set_status.
  - rewrite !in_app_iff. left. left. left. right. now left.
Qed.

Lemma accepted_email_marked_failed_witness :
  get_status
    (nth 1 (sheet (snd (email_row
                          (sample_env (fun _ => true) (fun _ c _ => c =? STATUS_COL_IDX) t0)
                          false [header; jane] 1 0 (start [header; jane])))) [])
  = "Email Failed".
Proof.
  exact (proj1 (proj2 (accepted_email_marked_failed
                         (sample_env (fun _ => true) (fun _ c _ => c =? STATUS_COL_IDX) t0)
                         [header; jane] 1 0 (start [header; jane])
                         eq_refl eq_refl eq_refl eq_refl eq_refl))).
Defined.

(** X14. The handler of line 109 also catches a failure of the
    spreadsheet.  When the SMS of a due row is accepted but the request
    that writes "Done" fails, the row is marked "SMS Failed" and is not
    counted, although its SMS went out. *)
Theorem accepted_sms_marked_failed
        (env : Env) (rows : Sheet) (r count : nat) (w : World) :
  sms_ready env rows r ->
  http_ok env r = true ->
  write_ok env r STATUS_COL_IDX "Done" = false ->
  write_ok env r STATUS_COL_IDX "SMS Failed" = true ->
  fst (advance_row env false rows r count w) = inr count
  /\ get_status (nth r (sheet (snd (advance_row env false rows r count w))) [])
     = "SMS Failed"
  /\ In (SendMessage r (str_of (get_contact_id (nth r rows []))) "SMS"
                     (Str.format SMS_BODY_TEMPLATE (get_first_name (nth r rows [])))
                     None)
        (log (snd (advance_row env false rows r count w))).
Proof.
  intros [Hc [Hd [t [Hp Hdue]]]] Hh Hw1 Hw2. unfold has_contact in Hc.
  remember (advance_row env false rows r count w) as res eqn:E.
  unfold advance_row in E. rewrite Hc, Hd, Hp in E.
  unfold bind at 1, lift in E. cbn [datetime_sub] in E.
  destruct (Z.ltb_spec (now env r - t) (timedelta_hours DELAY_HOURS)) as [Hlt|_];
    [lia|]. cbn [negb] in E.
  unfold try_except, bind at 1 in E. rewrite send_sms, Hh in E.
  unfold update_status, bind in E. rewrite update_cell_fails in E by exact Hw1.
  rewrite update_cell_ok in E by exact Hw2. subst res. unfold ret. cbn [fst snd sheet log history].
  split; [reflexivity|]. split.
  - now rewrite nth_set_cell, Nat.eqb_refl, get_status_set_status.
  - rewrite !in_app_iff. left. left. right. now left.
Qed.

Lemma accepted_sms_marked_failed_witness :
  get_status
    (nth 1 (sheet (snd (advance_row
                          (sample_env (fun _ => true)
                                      (fun _ _ v => (v =? "SMS Failed")%string) t0)
                          false [header; due_row] 1 0 (start [header; due_row])))) [])
  = "SMS Failed".
Proof.
  assert (Hready : sms_ready (sample_env (fun _ => true)
                                         (fun _ _ v => (v =? "SMS Failed")%string) t0)
                             [header; due_row] 1).
  { split; [vm_compute; reflexivity|]. split; [vm_compute; reflexivity|].
    exists (t0 - timedelta_hours 49)%Z. split; vm_compute; [reflexivity|discriminate]. }
  exact (proj1 (proj2 (accepted_sms_marked_failed
                         (sample_env (fun _ => true)
                                     (fun _ _ v => (v =? "SMS Failed")%string) t0)
                         [header; due_row] 1 0 (start [header; due_row])
                         Hready eq_refl eq_refl eq_refl))).
Defined.

(** ** The list of the active batch *)

(** X15. The scan of lines 65-68 lists, in strictly increasing order and
    so without repetition, exactly the data rows whose stripped status is
    "Email Sent"; the header row is never in the list. *)
Theorem active_batch_is_the_email_sent_rows (rows : Sheet) (r : nat) :
  StronglySorted lt (scan_active 0 (skipn 1 rows))
  /\ (In r (scan_active 0 (skipn 1 rows)) <->
      1 <= r < List.length rows /\ get_status (nth r rows []) = "Email Sent").
Proof.
  split; [apply scan_active_sorted|apply active_row_iff].
Qed.

(** ** Errors of [update_status] *)

(** X16. [update_status] is two requests, and a failure of either one
    raises.  When the request for the status cell fails, the date cell is
    not requested and the tab is as before; when the status cell is written
    and the request for the date cell fails, the call raises with the new
    status already in the tab. *)
Theorem update_status_stops_at_first_failure
        (env : Env) (tab : string) (r c c' : nat) (v v' : string) (w : World) :
  (write_ok env r c v = false ->
   update_status env tab r c v (Some c') (Some v') w
   = (inl SheetsError,
      {| sheet := sheet w; history := history w;
         log := log w ++ [UpdateCell tab r c v] |}))
  /\ (write_ok env r c v = true -> write_ok env r c' v' = false ->
      update_status env tab r c v (Some c') (Some v') w
      = (inl SheetsError,
         {| sheet := set_cell (sheet w) r c v;
            history := history w ++ [set_cell (sheet w) r c v];
            log := (log w ++ [UpdateCell tab r c v]) ++ [UpdateCell tab r c' v'] |})).
Proof.
  split.
  - intros H1. unfold update_status, bind. now rewrite update_cell_fails.
  - intros H1 H2. unfold update_status, bind.
    rewrite update_cell_ok by exact H1. now rewrite update_cell_fails.
Qed.

Lemma update_status_stops_at_first_failure_witness :
  update_status (sample_env (fun _ => true) (fun _ c _ => c =? STATUS_COL_IDX) t0)
                TAB_NAME 1 STATUS_COL_IDX "Email Sent" (Some DATE_SENT_COL_IDX)
                (Some "2024-03-01T09:00:00") (start [header; jane])
  = (inl SheetsError,
     {| sheet := set_cell [header; jane] 1 STATUS_COL_IDX "Email Sent";
        history := [set_cell [header; jane] 1 STATUS_COL_IDX "Email Sent"];
        log := [UpdateCell TAB_NAME 1 STATUS_COL_IDX "Email Sent";
                UpdateCell TAB_NAME 1 DATE_SENT_COL_IDX "2024-03-01T09:00:00"] |}).
Proof.
  apply (proj2 (update_status_stops_at_first_failure
                  (sample_env (fun _ => true) (fun _ c _ => c =? STATUS_COL_IDX) t0)
                  TAB_NAME 1 STATUS_COL_IDX DATE_SENT_COL_IDX "Email Sent"
                  "2024-03-01T09:00:00" (start [header; jane]))); reflexivity.
Defined.

(** ** The text of the messages *)

(** X17. Each template holds the field [{first_name}] once, and the body
    of a message is the template with the first name put in its place as it
    is, without any escaping: the SMS reads "Hey <name>, Jim here ..." and
    the e-mail "... <p>Hi <name>,</p> ...". *)
Theorem body_is_template_around_name :
  (exists head tail,
      SMS_BODY_TEMPLATE = (head ++ "{first_name}" ++ tail)%string
      /\ head = "Hey "
      /\ forall first_name,
           Str.format SMS_BODY_TEMPLATE first_name = (head ++ first_name ++ tail)%string)
  /\ (exists head tail,
         EMAIL_BODY_TEMPLATE = (head ++ "<p>Hi {first_name}" ++ tail)%string
         /\ forall first_name,
              Str.format EMAIL_BODY_TEMPLATE first_name
              = (head ++ "<p>Hi " ++ first_name ++ tail)%string).
Proof.
  split.
  - exists "Hey ", ", Jim here from Splendid Moving.

Did you see my email about the 5% loyalty discount?

If you are moving soon, you can use this link to get a quote with the 5% off applied: https://services.msgsndr.com/urls/l/QGRUkVTzw 

Let me know if it works!".
    split; [vm_compute; reflexivity|]. split; [reflexivity|].
    intros first_name. vm_compute. reflexivity.
  - exists ("<div style=" ++ dq
            ++ "font-size: 16px; font-family: Arial, sans-serif; color: #333;" ++ dq ++ ">
")%string.
    eexists. split; [vm_compute; reflexivity|].
    intros first_name. vm_compute. reflexivity.
Qed.

(** ** No write without a message *)

Lemma snoc_split (evs l1 l2 : list Event) (ev u : Event) :
  evs ++ [ev] = l1 ++ u :: l2 ->
  (l2 = [] /\ ev = u /\ evs = l1)
  \/ (exists l2', l2 = l2' ++ [ev] /\ evs = l1 ++ u :: l2').
Proof.
  destruct l2 as [|x l2] using rev_ind; intros H.
  - left. apply app_inj_tail in H. intuition.
  - right. exists l2. change (l1 ++ u :: l2 ++ [x]) with (l1 ++ (u :: l2) ++ [x]) in H.
    rewrite app_assoc in H. apply app_inj_tail in H. destruct H as [-> ->]. auto.
Qed.

Lemma sent_before_write_snoc (evs : list Event) (ev : Event) :
  sent_before_write evs ->
  match ev with
  | UpdateCell _ r _ _ => exists e, In e evs /\ sent_for r e
  | _ => True
  end ->
  sent_before_write (evs ++ [ev]).
Proof.
  intros Hevs Hev l1 tab r c v l2 E.
  apply snoc_split in E. destruct E as [[_ [-> ->]]|[l2' [_ ->]]].
  - exact Hev.
  - now apply (Hevs l1 tab r c v l2').
Qed.

Section Ordering.

Variable env : Env.

Lemma leads_send (r : nat) (cid ty body : string) (subj : option string) :
  leads in_order (in_order_sent r) (send_ghl_message env r cid ty body subj).
Proof.
  intros w Hw.
  assert (Hlog : log (snd (send_ghl_message env r cid ty body subj w))
                 = log w ++ [SendMessage r cid ty body subj]).
  { unfold send_ghl_message, bind, emit.
    destruct (Str.lower ty =? "email")%string; [destruct (falsy subj)|];
      simpl; try destruct (http_ok env r); reflexivity. }
  unfold in_order_sent. rewrite Hlog. split.
  - now apply sent_before_write_snoc.
  - exists (SendMessage r cid ty body subj). split; [|reflexivity].
    apply in_or_app. right. now left.
Qed.

Lemma leads_update_status (tab : string) (r c : nat) (v : string)
      (dc : option nat) (dv : option string) :
  leads (in_order_sent r) (in_order_sent r) (update_status env tab r c v dc dv).
Proof.
  assert (Hcell : forall c v,
             leads (in_order_sent r) (in_order_sent r) (update_cell env tab r c v)).
  { intros c0 v0 w [Hw [e [He Hs]]].
    assert (Hlog : log (snd (update_cell env tab r c0 v0 w))
                   = log w ++ [UpdateCell tab r c0 v0])
      by (unfold update_cell, bind, emit; now destruct (write_ok env r c0 v0)).
    unfold in_order_sent. rewrite Hlog. split.
    - apply sent_before_write_snoc; [exact Hw|]. now exists e.
    - exists e. split; [apply in_or_app; now left|exact Hs]. }
  unfold update_status. intros w Hw. unfold bind.
  pose proof (Hcell c v w Hw) as H1.
  destruct (update_cell env tab r c v w) as [[e|[]] w1]; cbn [snd] in *; [exact H1|].
  destruct dc as [c'|]; [destruct dv as [v'|]|]; try exact H1.
  now apply Hcell.
Qed.

Lemma leads_row_step (r c c' : nat) (cid ty body v v' : string) (subj : option string)
      (dc : option nat) (dv : option string) :
  leads in_order in_order
        (try_except
           (send_ghl_message env r cid ty body subj ;;
            update_status env TAB_NAME r STATUS_COL_IDX v dc dv ;;
            ret c)
           (fun _ =>
              update_status env TAB_NAME r STATUS_COL_IDX v' None None ;;
              ret c')).
Proof.
  intros w Hw. unfold try_except, bind.
  pose proof (leads_send r cid ty body subj w Hw) as H1.
  destruct (send_ghl_message env r cid ty body subj w) as [[e|[]] w1]; cbn [snd] in H1.
  - pose proof (leads_update_status TAB_NAME r STATUS_COL_IDX v' None None w1 H1) as H2.
    destruct (update_status env TAB_NAME r STATUS_COL_IDX v' None None w1)
      as [[e2|[]] w2]; cbn [snd] in *; exact (proj1 H2).
  - pose proof (leads_update_status TAB_NAME r STATUS_COL_IDX v dc dv w1 H1) as H2.
    destruct (update_status env TAB_NAME r STATUS_COL_IDX v dc dv w1)
      as [[e2|[]] w2]; cbn [snd] in *; [|exact (proj1 H2)].
    pose proof (leads_update_status TAB_NAME r STATUS_COL_IDX v' None None w2 H2) as H3.
    destruct (update_status env TAB_NAME r STATUS_COL_IDX v' None None w2)
      as [[e3|[]] w3]; cbn [snd] in *; exact (proj1 H3).
Qed.

Lemma leads_advance_row (dry_run : bool) (rows : Sheet) (r c : nat) :
  leads in_order in_order (advance_row env dry_run rows r c).
Proof.
  unfold advance_row.
  destruct (falsy (get_contact_id _)); [now intros w|].
  destruct (falsy (get_date_sent _)); [now intros w|].
  destruct (fromisoformat env _) as [[t|t o]|]; [| |now intros w].
  - intros w. unfold bind at 1, lift. cbn [datetime_sub]. revert w.
    destruct (Z.ltb _ _); [now intros w|].
    destruct dry_run; cbn [negb]; [now intros w|].
    apply leads_row_step.
  - now intros w.
Qed.

Lemma leads_email_row (dry_run : bool) (rows : Sheet) (r c : nat) :
  leads in_order in_order (email_row env dry_run rows r c).
Proof.
  unfold email_row.
  destruct (falsy (get_contact_id _)); [now intros w|].
  destruct dry_run; cbn [negb]; [now intros w|].
  apply leads_row_step.
Qed.

Lemma leads_for_each (xs : list nat) (body : nat -> nat -> M nat) :
  (forall x c, leads in_order in_order (body x c)) ->
  forall c, leads in_order in_order (for_each xs body c).
Proof.
  intros Hbody. induction xs as [|x rest IH]; intros c w Hw; cbn [for_each];
    [exact Hw|].
  unfold bind. pose proof (Hbody x c w Hw) as H1.
  destruct (body x c w) as [[e|c'] w1]; cbn [snd] in *; [exact H1|].
  now apply IH.
Qed.

Lemma leads_summary (dry_run : bool) (n : nat) (msg : string) :
  leads in_order in_order
        (if 0 <? n
         then if negb dry_run then send_notification msg else ret tt
         else ret tt).
Proof.
  destruct (0 <? n); [|now intros w].
  destruct dry_run; cbn [negb]; [now intros w|].
  intros w Hw. unfold send_notification, emit, in_order. cbn [snd log].
  now apply sent_before_write_snoc.
Qed.

Lemma leads_main (dry_run : bool) : leads in_order in_order (main env dry_run).
Proof.
  intros w Hw.
  destruct (client_ok env) eqn:Hclient;
    [|now rewrite main_without_client by assumption].
  destruct (read_ok env) eqn:Hread;
    [|now rewrite main_without_rows by assumption].
  rewrite main_after_read by assumption.
  destruct (sheet w) as [|h data]; [exact Hw|].
  destruct (scan_active 0 (skipn 1 (h :: data))) as [|i idxs].
  - unfold start_new_batch.
    destruct (scan_new 0 (skipn 1 (h :: data)) []) as [|j sel]; [exact Hw|].
    unfold bind.
    pose proof (leads_for_each (j :: sel) (email_row env dry_run (h :: data))
                  (leads_email_row dry_run (h :: data)) 0 w Hw) as H1.
    destruct (for_each (j :: sel) _ 0 w) as [[e|n] w1]; cbn [snd] in *; [exact H1|].
    now apply leads_summary.
  - unfold advance_active_batch, bind.
    pose proof (leads_for_each (i :: idxs) (advance_row env dry_run (h :: data))
                  (leads_advance_row dry_run (h :: data)) 0 w Hw) as H1.
    destruct (for_each (i :: idxs) _ 0 w) as [[e|n] w1]; cbn [snd] in *; [exact H1|].
    now apply leads_summary.
Qed.

End Ordering.

(** X18. In every run a cell of a row is written only after a message was
    made for that row: no status is set, and no date, for a row for which
    [send_ghl_message] was not called first. *)
Theorem no_write_without_message (env : Env) (dry_run : bool) (rows : Sheet) :
  sent_before_write (log (after_run env dry_run rows)).
Proof.
  apply (leads_main env dry_run (start rows)).
  intros l1 tab r c v l2 E. now destruct l1.
Qed.

(** ** Rows that are finished *)

Lemma other_status_row_kept (env : Env) (dry_run : bool) (rows : Sheet) (r : nat) :
  get_status (nth r rows []) <> "Email Sent" ->
  get_status (nth r rows []) <> "New" ->
  get_status (nth r rows []) <> "" ->
  nth r (sheet (after_run env dry_run rows)) [] = nth r rows [].
Proof.
  intros H1 H2 H3.
  apply untouched_intro with (env := env) (dry_run := dry_run) (rows := rows) (r := r).
  intros ev Hev Hab.
  destruct (main_event_status env rows ev r Hev Hab) as [E|[E|E]]; contradiction.
Qed.

(** X19. A row whose status is none of "Email Sent", "New" and empty (so a
    row at "Done", "Email Failed" or "SMS Failed") holds the same cells
    after any sequence of runs, dry or real, whatever the services answer:
    only a change made outside the program brings it back. *)
Theorem finished_row_survives_all_runs (steps : list (Env * bool)) (rows : Sheet) (r : nat) :
  get_status (nth r rows []) <> "Email Sent" ->
  get_status (nth r rows []) <> "New" ->
  get_status (nth r rows []) <> "" ->
  nth r (after_runs steps rows) [] = nth r rows [].
Proof.
  unfold after_runs. revert rows.
  induction steps as [|[env dry_run] steps IH]; intros rows H1 H2 H3; cbn [fold_left];
    [reflexivity|].
  cbn [fst snd].
  pose proof (other_status_row_kept env dry_run rows r H1 H2 H3) as Hrow.
  rewrite IH; rewrite Hrow; auto.
Qed.

Lemma finished_row_survives_all_runs_witness :
  nth 1 (after_runs [(all_ok, false); (all_ok, true); (all_ok, false)]
                    [header;
                     ["Di Poe"; "Di"; "di@x.com"; "555-0003"; ""; ""; ""; "c2"; "Done";
                      "2024-02-28T08:00:00"];
                     jane]) []
  = ["Di Poe"; "Di"; "di@x.com"; "555-0003"; ""; ""; ""; "c2"; "Done";
     "2024-02-28T08:00:00"].
Proof.
  apply (finished_row_survives_all_runs
           [(all_ok, false); (all_ok, true); (all_ok, false)]
           [header;
            ["Di Poe"; "Di"; "di@x.com"; "555-0003"; ""; ""; ""; "c2"; "Done";
             "2024-02-28T08:00:00"];
            jane] 1); discriminate.
Defined.
